(** * bqt: a shallow embedding of [bqt.py]

    [bqt.py] bootstraps a PySide2 [QApplication] inside Blender.  The module
    is glue over three foreign interfaces (Qt through PySide2, Blender's
    [bpy], the operating system), so the embedding is an explicit
    state-and-exception monad over a [World] record that holds the part of
    those interfaces the module reads or writes: the process environment,
    the persisted [QSettings] store, the [QApplication] singleton, and
    Blender's class registry, handler list and timers.

    Python exceptions are values of [Exn]; a computation that raises keeps
    the state it had reached, as in Python. *)

From Stdlib Require Import ZArith Ascii String List Bool Lia.
From Stdlib Require Import Floats.SpecFloat.
From stdpp Require Import base option list gmap strings.

Local Open Scope Z_scope.
Local Open Scope string_scope.
Local Open Scope list_scope.

(** ** Python exceptions and the state-and-exception monad *)

Inductive Exn : Type :=
| ValueError
| ZeroDivisionError
| AttributeError
| TypeError
| NotImplementedError
| RuntimeError.

Inductive Outcome (A : Type) : Type :=
| Ok (a : A)
| Raise (e : Exn).

Arguments Ok {A} a.
Arguments Raise {A} e.

Definition M (S A : Type) : Type := S -> Outcome A * S.

Definition ret {S A} (a : A) : M S A := fun s => (Ok a, s).

Definition raise {S A} (e : Exn) : M S A := fun s => (Raise e, s).

Definition bind {S A B} (m : M S A) (k : A -> M S B) : M S B :=
  fun s =>
    match m s with
    | (Ok a, s') => k a s'
    | (Raise e, s') => (Raise e, s')
    end.

Definition gets {S A} (f : S -> A) : M S A := fun s => (Ok (f s), s).

Definition modify {S} (f : S -> S) : M S unit := fun s => (Ok tt, f s).

Declare Scope py_scope.
Delimit Scope py_scope with py.
Notation "'do' x <- m ; k" := (bind m (fun x => k))
  (at level 10, x name, m at level 100, k at level 200,
   format "'[v' 'do'  x  <-  m ; '/' k ']'") : py_scope.
Notation "'do' ' p <- m ; k" := (bind m (fun x => match x with p => k end))
  (at level 10, p pattern, m at level 100, k at level 200) : py_scope.
Notation "'run' m ; k" := (bind m (fun _ => k))
  (at level 10, m at level 100, k at level 200,
   format "'[v' 'run'  m ; '/' k ']'") : py_scope.
Local Open Scope py_scope.

(** [try: m except (e1, e2, ...): handler]. *)
Definition try_except {S A} (m : M S A) (caught : Exn -> bool)
    (handler : Exn -> M S A) : M S A :=
  fun s =>
    match m s with
    | (Ok a, s') => (Ok a, s')
    | (Raise e, s') => if caught e then handler e s' else (Raise e, s')
    end.

(** ** Strings: [str.lower], [in], [str.strip] (ASCII) *)

Definition ascii_lower (c : ascii) : ascii :=
  let n := N_of_ascii c in
  if ((65 <=? n) && (n <=? 90))%N then ascii_of_N (n + 32) else c.

Fixpoint lower (s : string) : string :=
  match s with
  | EmptyString => EmptyString
  | String c t => String (ascii_lower c) (lower t)
  end.

(** [sub in s] for strings. *)
Fixpoint contains (sub s : string) : bool :=
  String.prefix sub s ||
  match s with
  | EmptyString => false
  | String _ t => contains sub t
  end.

Definition is_space (c : ascii) : bool :=
  let n := N_of_ascii c in
  ((n =? 32) || ((9 <=? n) && (n <=? 13)))%N.

Definition is_digit (c : ascii) : bool :=
  let n := N_of_ascii c in
  ((48 <=? n) && (n <=? 57))%N.

Definition digit_value (c : ascii) : Z := Z.of_N (N_of_ascii c) - 48.

Fixpoint lstrip (cs : list ascii) : list ascii :=
  match cs with
  | c :: t => if is_space c then lstrip t else cs
  | [] => []
  end.

Definition strip (cs : list ascii) : list ascii :=
  rev (lstrip (rev (lstrip cs))).

(** ** Text: UTF-8 and the Unicode database

    A [string] holds the UTF-8 bytes of a Python [str].  [float] looks at
    the code points: it takes any Unicode decimal digit for the ASCII
    digit of its value and any Unicode blank for a space.  The tables are
    those of CPython 3.11 (Unicode 14.0): the decimal digits come in runs
    of ten, listed by their zero. *)

Definition is_continuation (c : ascii) : bool :=
  let n := N_of_ascii c in ((128 <=? n) && (n <=? 191))%N.

(** The second byte that may follow the first byte [n] of a sequence of
    three, and of four (no overlong forms, no surrogates, nothing beyond
    U+10FFFF). *)
Definition second_of_three (n : N) (c : ascii) : bool :=
  let m := N_of_ascii c in
  (if n =? 224 then (160 <=? m) && (m <=? 191)
   else if n =? 237 then (128 <=? m) && (m <=? 159)
   else (225 <=? n) && (n <=? 239) && (128 <=? m) && (m <=? 191))%N.

Definition second_of_four (n : N) (c : ascii) : bool :=
  let m := N_of_ascii c in
  (if n =? 240 then (144 <=? m) && (m <=? 191)
   else if n =? 244 then (128 <=? m) && (m <=? 143)
   else (241 <=? n) && (n <=? 243) && (128 <=? m) && (m <=? 191))%N.

(** A byte that is not part of a well-formed sequence becomes the lone
    surrogate that [surrogateescape] gives it. *)
Definition escaped (c : ascii) : N := (56320 + N_of_ascii c)%N.

Definition low6 (c : ascii) : N := (N_of_ascii c - 128)%N.

Fixpoint decode_utf8 (bs : list ascii) : list N :=
  match bs with
  | [] => []
  | b :: t =>
      let n := N_of_ascii b in
      if (n <? 128)%N then n :: decode_utf8 t
      else
        match t with
        | b1 :: t1 =>
            if ((194 <=? n) && (n <=? 223))%N && is_continuation b1 then
              ((n - 192) * 64 + low6 b1)%N :: decode_utf8 t1
            else
              match t1 with
              | b2 :: t2 =>
                  if second_of_three n b1 && is_continuation b2 then
                    ((n - 224) * 4096 + low6 b1 * 64 + low6 b2)%N :: decode_utf8 t2
                  else
                    match t2 with
                    | b3 :: t3 =>
                        if second_of_four n b1 && is_continuation b2 &&
                           is_continuation b3 then
                          ((n - 240) * 262144 + low6 b1 * 4096 + low6 b2 * 64 + low6 b3)%N
                            :: decode_utf8 t3
                        else escaped b :: decode_utf8 t
                    | [] => escaped b :: decode_utf8 t
                    end
              | [] => escaped b :: decode_utf8 t
              end
        | [] => [escaped b]
        end
  end.

(** The code points of the digit zero of every decimal digit run. *)
Definition DECIMAL_ZEROS : list N :=
  [
    48; 1632; 1776; 1984; 2406; 2534; 2662; 2790; 2918; 3046; 3174; 3302;
    3430; 3558; 3664; 3792; 3872; 4160; 4240; 6112; 6160; 6470; 6608; 6784;
    6800; 6992; 7088; 7232; 7248; 42528; 43216; 43264; 43472; 43504; 43600;
    44016; 65296; 66720; 68912; 69734; 69872; 69942; 70096; 70384; 70736;
    70864; 71248; 71360; 71472; 71904; 72016; 72784; 73040; 73120; 92768;
    92864; 93008; 120782; 120792; 120802; 120812; 120822; 123200; 123632;
    125264; 130032
  ]%N.

(** [Py_UNICODE_TODECIMAL]. *)
Definition decimal_digit (cp : N) : option N :=
  match find (fun z => (z <=? cp) && (cp <? z + 10))%N DECIMAL_ZEROS with
  | Some z => Some (cp - z)%N
  | None => None
  end.

(** The code points [str.isspace] holds of. *)
Definition UNICODE_SPACES : list N :=
  [
    9; 10; 11; 12; 13; 28; 29; 30; 31; 32; 133; 160; 5760; 8192; 8193; 8194;
    8195; 8196; 8197; 8198; 8199; 8200; 8201; 8202; 8232; 8233; 8239; 8287;
    12288
  ]%N.

(** [Py_UNICODE_ISSPACE]. *)
Definition is_unicode_space (cp : N) : bool := existsb (N.eqb cp) UNICODE_SPACES.

(** What [float] does to a [str] that is not ASCII before it reads it:
    code points below 127 stay, a blank becomes a space, a decimal digit
    its ASCII digit, and at anything else the text ends in [?]. *)
Fixpoint to_ascii_text (cps : list N) : list ascii :=
  match cps with
  | [] => []
  | cp :: t =>
      if (cp <? 127)%N then ascii_of_N cp :: to_ascii_text t
      else if is_unicode_space cp then " "%char :: to_ascii_text t
      else
        match decimal_digit cp with
        | Some d => ascii_of_N (48 + d) :: to_ascii_text t
        | None => ["?"%char]
        end
  end.

(** The characters [float] reads for a text: an ASCII text as it is. *)
Definition float_text (s : string) : list ascii :=
  let bs := list_ascii_of_string s in
  let cps := decode_utf8 bs in
  if forallb (fun cp => cp <? 128)%N cps then bs else to_ascii_text cps.

(** ** Python floats: binary64, as [spec_float] with 53 bits and emax 1024 *)

Definition float : Type := spec_float.

Definition prec64 : Z := 53.
Definition emax64 : Z := 1024.

Definition float_one : float := SFone prec64 emax64.

(** [digitpart ::= digit (["_"] digit)*]: the digits read after a first
    digit, and the rest of the input. *)
Fixpoint digitpart_rest (cs : list ascii) : list ascii * list ascii :=
  match cs with
  | c :: t =>
      if is_digit c then
        let (ds, r) := digitpart_rest t in (c :: ds, r)
      else if Ascii.eqb c "_" then
        match t with
        | d :: t' =>
            if is_digit d then
              let (ds, r) := digitpart_rest t' in (d :: ds, r)
            else ([], cs)
        | [] => ([], cs)
        end
      else ([], cs)
  | [] => ([], [])
  end.

Definition digitpart (cs : list ascii) : option (list ascii * list ascii) :=
  match cs with
  | c :: t =>
      if is_digit c then
        let (ds, r) := digitpart_rest t in Some (c :: ds, r)
      else None
  | [] => None
  end.

Definition digits_value (ds : list ascii) : Z :=
  fold_left (fun acc c => 10 * acc + digit_value c) ds 0.

(** [sign ::= "+" | "-"], optional: whether negative, and the rest. *)
Definition read_sign (cs : list ascii) : bool * list ascii :=
  match cs with
  | c :: t =>
      if Ascii.eqb c "-" then (true, t)
      else if Ascii.eqb c "+" then (false, t)
      else (false, cs)
  | [] => (false, [])
  end.

(** [number ::= [digitpart] "." digitpart | digitpart ["."]]: the digits of
    the integer and fraction parts together, the number of fraction digits,
    and the rest. *)
Definition read_number (cs : list ascii) : option (list ascii * Z * list ascii) :=
  match digitpart cs with
  | Some (ip, r) =>
      match r with
      | c :: r' =>
          if Ascii.eqb c "." then
            match digitpart r' with
            | Some (fp, r'') => Some (ip ++ fp, Z.of_nat (length fp), r'')
            | None => Some (ip, 0, r')
            end
          else Some (ip, 0, r)
      | [] => Some (ip, 0, [])
      end
  | None =>
      match cs with
      | c :: r' =>
          if Ascii.eqb c "." then
            match digitpart r' with
            | Some (fp, r'') => Some (fp, Z.of_nat (length fp), r'')
            | None => None
            end
          else None
      | [] => None
      end
  end.

(** [exponent ::= ("e" | "E") [sign] digitpart], optional, then end of
    input. *)
Definition read_exponent (cs : list ascii) : option Z :=
  match cs with
  | [] => Some 0
  | c :: t =>
      if Ascii.eqb (ascii_lower c) "e" then
        let (neg, t') := read_sign t in
        match digitpart t' with
        | Some (ds, []) => Some (if neg then - digits_value ds else digits_value ds)
        | _ => None
        end
      else None
  end.

(** The binary64 value nearest to [m * 10^e] (ties to even). *)
Definition round_decimal (neg : bool) (m e : Z) : float :=
  match m with
  | Zpos p =>
      if (0 <=? e)%Z then
        binary_round prec64 emax64 neg (p * Z.to_pos (10 ^ e)) 0
      else
        SFdiv prec64 emax64 (S754_finite neg p 0)
              (S754_finite false (Z.to_pos (10 ^ (- e))) 0)
  | _ => S754_zero neg
  end.

(** Python's [float(s)] on a string: [None] stands for [ValueError].
    Blanks are stripped at both ends after the text has been made ASCII;
    in an ASCII text only the blanks of C's [isspace] are. *)
Definition py_float (s : string) : option float :=
  let cs := strip (float_text s) in
  let (neg, body) := read_sign cs in
  let word := lower (string_of_list_ascii body) in
  if String.eqb word "inf" || String.eqb word "infinity" then
    Some (S754_infinity neg)
  else if String.eqb word "nan" then Some S754_nan
  else
    match read_number body with
    | Some (ds, scale, r) =>
        match read_exponent r with
        | Some ex => Some (round_decimal neg (digits_value ds) (ex - scale))
        | None => None
        end
    | None => None
    end.

(** [a / b] on floats: Python raises on a zero divisor and otherwise
    divides as IEEE 754 does. *)
Definition py_truediv (a b : float) : Outcome float :=
  match b with
  | S754_zero _ => Raise ZeroDivisionError
  | _ => Ok (SFdiv prec64 emax64 a b)
  end.

(** [os.getenv(key)] and [os.getenv(key, default)]. *)
Definition getenv (env : gmap string string) (key : string) : option string :=
  env !! key.

Definition getenv_default (env : gmap string string) (key dflt : string) : string :=
  match getenv env key with
  | Some v => v
  | None => dflt
  end.

(** ** Qt values *)

Record QRect : Type := mkQRect { rect_x : Z; rect_y : Z; rect_width : Z; rect_height : Z }.

(** What a settings key can hold, and what [QSettings.value] can hand to
    Python: a [bool], a [str] or a [QRect]. *)
Inductive QVariant : Type :=
| VBool (b : bool)
| VString (s : string)
| VRect (r : QRect).

(** The state of the container widget that the module reads
    ([geometry()], [isMaximized()], [isFullScreen()]) or sets. *)
Record QWidget : Type := mkQWidget {
  widget_id : nat;
  geometry : QRect;
  isMaximized : bool;
  isFullScreen : bool;
  isVisible : bool
}.

(** [setGeometry] keeps the position and bounds each side of the size by
    the widget's minimum and maximum size, which are 0 and
    [QWIDGETSIZE_MAX] unless set. *)
Definition QWIDGETSIZE_MAX : Z := 16777215.

Definition bounded_side (v : Z) : Z := Z.max (Z.min v QWIDGETSIZE_MAX) 0.

Definition setGeometry (r : QRect) (wd : QWidget) : QWidget :=
  mkQWidget (widget_id wd)
            (mkQRect (rect_x r) (rect_y r)
                     (bounded_side (rect_width r)) (bounded_side (rect_height r)))
            (isMaximized wd) (isFullScreen wd) (isVisible wd).

Definition show (wd : QWidget) : QWidget :=
  mkQWidget (widget_id wd) (geometry wd) (isMaximized wd) (isFullScreen wd) true.

(** Qt: [showMaximized] sets the maximized window state and clears
    full-screen; [showFullScreen] sets full-screen and clears maximized;
    both make the widget visible. *)
Definition showMaximized (wd : QWidget) : QWidget :=
  mkQWidget (widget_id wd) (geometry wd) true false true.

Definition showFullScreen (wd : QWidget) : QWidget :=
  mkQWidget (widget_id wd) (geometry wd) false true true.

(** A widget as [createWindowContainer] returns it: not shown, in no
    special window state, with Qt's initial geometry. *)
Definition new_widget (id : nat) : QWidget :=
  mkQWidget id (mkQRect 0 0 640 480) false false false.

(** [isinstance(event, QCloseEvent)] looks at the class of the event. *)
Inductive EventClass : Type :=
| QCloseEvent
| QOtherEvent (type : nat).

Record QEvent : Type := mkQEvent { event_class : EventClass; isAccepted : bool }.

Definition is_QCloseEvent (ev : QEvent) : bool :=
  match event_class ev with
  | QCloseEvent => true
  | QOtherEvent _ => false
  end.

Definition ignore (ev : QEvent) : QEvent := mkQEvent (event_class ev) false.

(** [QIcon(fileName)] records the file name and loads the file on demand;
    an icon is null when it has neither a pixmap nor a file name, whether
    or not the file can be read. *)
Record QIcon : Type := mkQIcon { icon_file : string }.

Definition QIcon_isNull (i : QIcon) : bool := String.eqb (icon_file i) "".

(** Truth value of [icon] in [if icon:]: [None] is false, and PySide2 gives
    an object that has [isNull()] the truth value [not isNull()]. *)
Definition icon_truthy (icon : option QIcon) : bool :=
  match icon with
  | None => false
  | Some i => negb (QIcon_isNull i)
  end.

(** ** The application wrapper object *)

Record BlenderApplication : Type := mkBlenderApplication {
  should_close : bool;
  _hwnd : Z;
  _blender_window : nat;
  blender_widget : QWidget;
  focus_connected : bool
}.

Definition set_should_close (b : bool) (self : BlenderApplication) : BlenderApplication :=
  mkBlenderApplication b (_hwnd self) (_blender_window self)
                       (blender_widget self) (focus_connected self).

Definition set_blender_widget (wd : QWidget) (self : BlenderApplication) : BlenderApplication :=
  mkBlenderApplication (should_close self) (_hwnd self) (_blender_window self)
                       wd (focus_connected self).

Definition set_focus_connected (b : bool) (self : BlenderApplication) : BlenderApplication :=
  mkBlenderApplication (should_close self) (_hwnd self) (_blender_window self)
                       (blender_widget self) b.

(** What [QApplication.instance()] can be: an application made by other
    code; this module's wrapper; or the wrapper left unfinished by a
    constructor that raised before the container widget existed, an
    object that has [should_close] and nothing else of its own. *)
Inductive QAppObj : Type :=
| PlainQApplication
| Wrapper (app : BlenderApplication)
| Unfinished.

(** ** Blender's registries *)

Inductive BpyClass : Type :=
| QOperator
| OtherClass (name : string).

Inductive Callable : Type :=
| Fn_on_update
| Fn_create_global_app
| Fn_onexit
| Fn_other (n : nat).

#[global] Instance BpyClass_eq_dec : EqDecision BpyClass.
Proof. solve_decision. Defined.

#[global] Instance Callable_eq_dec : EqDecision Callable.
Proof. solve_decision. Defined.

(** ** The world *)

(** What the module reads from its host and never writes. *)
Record Host : Type := mkHost {
  platform_system : string;              (* platform.system() *)
  environ : gmap string string;          (* os.environ *)
  module_file : string;                  (* __file__ *)
  tempdir : string;                      (* tempfile.gettempdir() *)
  contents_path : string;                (* Path(bpy.app.binary_path).resolve().parent.parent *)
  host_window : Z;                       (* the native handle of Blender's main window *)
  processes : list (Z * option string)   (* pid, and the executable path when the process can be opened *)
}.

Record World : Type := mkWorld {
  host : Host;
  TICK : float;                          (* module constant, set at import *)
  atexit_hooks : list Callable;
  temp_icon : option string;             (* TEMP_ICON_FILEPATH: the executable whose icon was saved there *)
  settings : gmap string QVariant;       (* QSettings('Tech-Artists.org', 'Blender Qt Wrapper') *)
  qapp : option QAppObj;                 (* QApplication.instance() *)
  window_icon : option QIcon;            (* QApplication.setWindowIcon *)
  next_object : nat;                     (* identity of the next Qt object created *)
  native_focus : option Z;               (* win32gui.SetFocus *)
  quit_called : bool;                    (* QApplication.quit *)
  registered_classes : list BpyClass;    (* bpy.utils.register_class *)
  load_post : list Callable;             (* bpy.app.handlers.load_post *)
  timers : list Callable;                (* bpy.app.timers *)
  quit_requests : nat                    (* calls of bpy.ops.wm.quit_blender *)
}.

Definition set_TICK (v : float) (w : World) : World :=
  mkWorld (host w) v (atexit_hooks w) (temp_icon w) (settings w) (qapp w)
          (window_icon w) (next_object w) (native_focus w) (quit_called w)
          (registered_classes w) (load_post w) (timers w) (quit_requests w).

Definition set_atexit_hooks (v : list Callable) (w : World) : World :=
  mkWorld (host w) (TICK w) v (temp_icon w) (settings w) (qapp w)
          (window_icon w) (next_object w) (native_focus w) (quit_called w)
          (registered_classes w) (load_post w) (timers w) (quit_requests w).

Definition set_temp_icon (v : option string) (w : World) : World :=
  mkWorld (host w) (TICK w) (atexit_hooks w) v (settings w) (qapp w)
          (window_icon w) (next_object w) (native_focus w) (quit_called w)
          (registered_classes w) (load_post w) (timers w) (quit_requests w).

Definition set_settings (v : gmap string QVariant) (w : World) : World :=
  mkWorld (host w) (TICK w) (atexit_hooks w) (temp_icon w) v (qapp w)
          (window_icon w) (next_object w) (native_focus w) (quit_called w)
          (registered_classes w) (load_post w) (timers w) (quit_requests w).

Definition set_qapp (v : option QAppObj) (w : World) : World :=
  mkWorld (host w) (TICK w) (atexit_hooks w) (temp_icon w) (settings w) v
          (window_icon w) (next_object w) (native_focus w) (quit_called w)
          (registered_classes w) (load_post w) (timers w) (quit_requests w).

Definition set_window_icon (v : option QIcon) (w : World) : World :=
  mkWorld (host w) (TICK w) (atexit_hooks w) (temp_icon w) (settings w) (qapp w)
          v (next_object w) (native_focus w) (quit_called w)
          (registered_classes w) (load_post w) (timers w) (quit_requests w).

Definition set_next_object (v : nat) (w : World) : World :=
  mkWorld (host w) (TICK w) (atexit_hooks w) (temp_icon w) (settings w) (qapp w)
          (window_icon w) v (native_focus w) (quit_called w)
          (registered_classes w) (load_post w) (timers w) (quit_requests w).

Definition set_native_focus (v : option Z) (w : World) : World :=
  mkWorld (host w) (TICK w) (atexit_hooks w) (temp_icon w) (settings w) (qapp w)
          (window_icon w) (next_object w) v (quit_called w)
          (registered_classes w) (load_post w) (timers w) (quit_requests w).

Definition set_quit_called (v : bool) (w : World) : World :=
  mkWorld (host w) (TICK w) (atexit_hooks w) (temp_icon w) (settings w) (qapp w)
          (window_icon w) (next_object w) (native_focus w) v
          (registered_classes w) (load_post w) (timers w) (quit_requests w).

Definition set_registered_classes (v : list BpyClass) (w : World) : World :=
  mkWorld (host w) (TICK w) (atexit_hooks w) (temp_icon w) (settings w) (qapp w)
          (window_icon w) (next_object w) (native_focus w) (quit_called w)
          v (load_post w) (timers w) (quit_requests w).

Definition set_load_post (v : list Callable) (w : World) : World :=
  mkWorld (host w) (TICK w) (atexit_hooks w) (temp_icon w) (settings w) (qapp w)
          (window_icon w) (next_object w) (native_focus w) (quit_called w)
          (registered_classes w) v (timers w) (quit_requests w).

Definition set_timers (v : list Callable) (w : World) : World :=
  mkWorld (host w) (TICK w) (atexit_hooks w) (temp_icon w) (settings w) (qapp w)
          (window_icon w) (next_object w) (native_focus w) (quit_called w)
          (registered_classes w) (load_post w) v (quit_requests w).

Definition set_quit_requests (v : nat) (w : World) : World :=
  mkWorld (host w) (TICK w) (atexit_hooks w) (temp_icon w) (settings w) (qapp w)
          (window_icon w) (next_object w) (native_focus w) (quit_called w)
          (registered_classes w) (load_post w) (timers w) v.

(** ** Module constants *)

Definition IS_WINDOWS (h : Host) : bool := String.eqb (lower (platform_system h)) "windows".
Definition IS_MAC (h : Host) : bool := String.eqb (lower (platform_system h)) "darwin".
Definition IS_LINUX (h : Host) : bool := String.eqb (lower (platform_system h)) "linux".

Definition SETTINGS_KEY_GEOMETRY : string := "Geometry".
Definition SETTINGS_KEY_MAXIMIZED : string := "IsMaximized".
Definition SETTINGS_KEY_FULL_SCREEN : string := "IsFullScreen".
Definition SETTINGS_WINDOW_GROUP_NAME : string := "MainWindow".

(** [Path(tempfile.gettempdir()) / 'blender_icon.png'], as [str] gives it. *)
Definition path_sep (h : Host) : string := if IS_WINDOWS h then "\" else "/".

Definition TEMP_ICON_FILEPATH (h : Host) : string :=
  tempdir h +:+ path_sep h +:+ "blender_icon.png".

(** [TICK = 1.0 / float(os.getenv('BQT_TICK_RATE', '30'))], evaluated when
    the module is imported. *)
Definition TICK_at_import (env : gmap string string) : Outcome float :=
  match py_float (getenv_default env "BQT_TICK_RATE" "30") with
  | Some rate => py_truediv float_one rate
  | None => Raise ValueError
  end.

(** ** QSettings

    The store holds the values as they were set, and [value] hands them
    back as they are held.  A later session finds what the back end kept:
    the registry on Windows and INI files elsewhere keep a boolean as the
    text [true] or [false], which comes back as a [str] (the reading side
    compares [.lower()] with ['true']); the property list of macOS keeps
    it a boolean.  A rectangle comes back as a [QRect] on each.  Keys set
    after [beginGroup(g)] live under [g/]. *)

Definition stored_form (v : QVariant) : QVariant :=
  match v with
  | VBool b => VString (if b then "true" else "false")
  | _ => v
  end.

Definition settings_key (group key : string) : string := group +:+ "/" +:+ key.

Definition QSettings_value (store : gmap string QVariant)
    (group key : string) (dflt : QVariant) : QVariant :=
  match store !! settings_key group key with
  | Some v => v
  | None => dflt
  end.

Definition QSettings_setValue (store : gmap string QVariant)
    (group key : string) (v : QVariant) : gmap string QVariant :=
  <[settings_key group key := v]> store.

(** The store after the three writes of [_store_window_geometry] for a
    widget. *)
Definition stored_settings (wd : QWidget) (store : gmap string QVariant)
    : gmap string QVariant :=
  QSettings_setValue
    (QSettings_setValue
       (QSettings_setValue store SETTINGS_WINDOW_GROUP_NAME SETTINGS_KEY_GEOMETRY
                           (VRect (geometry wd)))
       SETTINGS_WINDOW_GROUP_NAME SETTINGS_KEY_MAXIMIZED (VBool (isMaximized wd)))
    SETTINGS_WINDOW_GROUP_NAME SETTINGS_KEY_FULL_SCREEN (VBool (isFullScreen wd)).

(** The store as a later session on host [h] finds it. *)
Definition reopened (h : Host) (store : gmap string QVariant) : gmap string QVariant :=
  if IS_MAC h then store else stored_form <$> store.

(** [v.lower()]: only a [str] has the method. *)
Definition py_lower {S} (v : QVariant) : M S string :=
  match v with
  | VString s => ret (lower s)
  | _ => raise AttributeError
  end.

(** The argument [setGeometry] accepts is a [QRect]. *)
Definition py_as_QRect {S} (v : QVariant) : M S QRect :=
  match v with
  | VRect r => ret r
  | _ => raise TypeError
  end.

(** ** Methods of [BlenderApplication]

    A method runs on the object and the world together. *)

Definition Self : Type := BlenderApplication * World.

Definition Method (A : Type) : Type := M Self A.

Definition get_self : Method BlenderApplication := gets fst.

Definition get_world : Method World := gets snd.

Definition update_self (f : BlenderApplication -> BlenderApplication) : Method unit :=
  modify (fun sw : Self => (f (fst sw), snd sw)).

Definition update_world (f : World -> World) : Method unit :=
  modify (fun sw : Self => (fst sw, f (snd sw))).

Definition update_widget (f : QWidget -> QWidget) : Method unit :=
  update_self (fun self => set_blender_widget (f (blender_widget self)) self).

(** Runs a method of [self] from code that only threads the world. *)
Definition call_method {A} (self : BlenderApplication) (m : Method A)
    : M World (A * BlenderApplication) :=
  fun w =>
    match m (self, w) with
    | (Ok a, (self', w')) => (Ok (a, self'), w')
    | (Raise e, (_, w')) => (Raise e, w')
    end.

Definition settings_read (key : string) (dflt : QVariant) : Method QVariant :=
  do w <- get_world;
  ret (QSettings_value (settings w) SETTINGS_WINDOW_GROUP_NAME key dflt).

Definition settings_write (key : string) (v : QVariant) : Method unit :=
  update_world (fun w =>
    set_settings (QSettings_setValue (settings w) SETTINGS_WINDOW_GROUP_NAME key v) w).

Definition _store_window_geometry : Method unit :=
  do self <- get_self;
  run settings_write SETTINGS_KEY_GEOMETRY (VRect (geometry (blender_widget self)));
  run settings_write SETTINGS_KEY_MAXIMIZED (VBool (isMaximized (blender_widget self)));
  settings_write SETTINGS_KEY_FULL_SCREEN (VBool (isFullScreen (blender_widget self))).

Definition _set_window_geometry : Method unit :=
  do full_screen <- settings_read SETTINGS_KEY_FULL_SCREEN (VString "false");
  do full_screen_text <- py_lower full_screen;
  if String.eqb full_screen_text "true" then
    update_widget showFullScreen
  else
    do maximized <- settings_read SETTINGS_KEY_MAXIMIZED (VString "false");
    do maximized_text <- py_lower maximized;
    if String.eqb maximized_text "true" then
      update_widget showMaximized
    else
      do value <- settings_read SETTINGS_KEY_GEOMETRY (VRect (mkQRect 0 0 640 480));
      do rect <- py_as_QRect value;
      run update_widget (setGeometry rect);
      update_widget show.

Definition _on_focus_object_changed (focus_object : nat) : Method unit :=
  do self <- get_self;
  do w <- get_world;
  if Nat.eqb focus_object (widget_id (blender_widget self)) then
    if IS_WINDOWS (host w) then
      update_world (set_native_focus (Some (_hwnd self)))
    else ret tt
  else ret tt.

(** [receiver in (self.blender_widget, self._blender_window)]. *)
Definition is_wrapped (self : BlenderApplication) (receiver : nat) : bool :=
  Nat.eqb receiver (widget_id (blender_widget self)) ||
  Nat.eqb receiver (_blender_window self).

Definition _get_application_icon_linux : M World QIcon :=
  raise NotImplementedError.

Definition _get_application_icon_macintosh : M World QIcon :=
  do h <- gets host;
  ret (mkQIcon (contents_path h +:+ "/Resources/blender icon.icns")).

(** The body of the loop for one process.  [None] is a process for which
    [OpenProcess] or [GetModuleFileNameEx] raises [pywintypes.error], which
    [suppress] swallows.  For a match the icon of the executable is drawn
    and saved at [TEMP_ICON_FILEPATH]. *)
Definition icon_of_process (p : Z * option string) : M World unit :=
  match snd p with
  | None => ret tt
  | Some exe =>
      if contains "blender" (lower exe) then modify (set_temp_icon (Some exe))
      else ret tt
  end.

Fixpoint for_each {S A} (body : A -> M S unit) (l : list A) : M S unit :=
  match l with
  | [] => ret tt
  | x :: t => run body x; for_each body t
  end.

Definition _get_application_icon_windows : M World QIcon :=
  do h <- gets host;
  run for_each icon_of_process (processes h);
  ret (mkQIcon (TEMP_ICON_FILEPATH h)).

(** [QObject] identities are handed out in order of creation. *)
Definition new_object : M World nat :=
  do n <- gets next_object;
  run modify (set_next_object (S n));
  ret n.

(** Lines 75 to 85 of [__init__]: the native handle, the window made from
    it and its container.  [self._hwnd] is assigned on Windows and on
    macOS only; reading it elsewhere raises [AttributeError]. *)
Definition init_window : M World BlenderApplication :=
  do h <- gets host;
  do hwnd <-
    (if IS_WINDOWS h then ret (host_window h)
     else if IS_MAC h then ret (host_window h)
     else raise AttributeError);
  do window <- new_object;
  do widget <- new_object;
  ret (mkBlenderApplication false hwnd window (new_widget widget) false).

(** Lines 87 to 95: the icon for the platform. *)
Definition init_icon : M World (option QIcon) :=
  do h <- gets host;
  if IS_MAC h then
    do icon <- _get_application_icon_macintosh; ret (Some icon)
  else if IS_LINUX h then
    run _get_application_icon_linux; ret None
  else if IS_WINDOWS h then
    do icon <- _get_application_icon_windows; ret (Some icon)
  else raise NotImplementedError.

(** Lines 87 to 103: the rest of [__init__] once the window exists. *)
Definition init_finish (self : BlenderApplication) : M World BlenderApplication :=
  do h <- gets host;
  do icon <- init_icon;
  run (if icon_truthy icon then modify (set_window_icon icon) else ret tt);
  do self <-
    (if negb (IS_MAC h) then
       do r <- call_method self _set_window_geometry; ret (snd r)
     else ret self);
  ret (set_focus_connected true self).

Definition BlenderApplication__init__ : M World BlenderApplication :=
  do self <- init_window;
  init_finish self.

(** [m], and [cleanup] on the way out when [m] raises. *)
Definition on_failure {S A} (m : M S A) (cleanup : S -> S) : M S A :=
  fun s =>
    match m s with
    | (Ok a, s') => (Ok a, s')
    | (Raise e, s') => (Raise e, cleanup s')
    end.

(** [BlenderApplication(sys.argv)]: the two halves of [__init__] in turn.
    The object under construction is the application instance from
    [super().__init__] (line 73) on, and stays the instance when
    [__init__] raises: unfinished when the window was not made, and
    otherwise the wrapper as far as it got.  Nothing in [__init__] asks
    for the instance, so it is recorded when [__init__] ends. *)
Definition BlenderApplication_new : M World BlenderApplication :=
  do self0 <- on_failure init_window (set_qapp (Some Unfinished));
  do self <- on_failure (init_finish self0) (set_qapp (Some (Wrapper self0)));
  run modify (set_qapp (Some (Wrapper self)));
  ret self.

(** ** Module functions *)

Definition timers_register (f : Callable) : M World unit :=
  do ts <- gets timers;
  modify (set_timers (ts ++ [f])).

Definition instantiate_application : M World QAppObj :=
  do app <- gets qapp;
  match app with
  | Some a => ret a
  | None =>
      do self <- BlenderApplication_new;
      run timers_register Fn_on_update;
      ret (Wrapper self)
  end.

(** [QOperator.execute]: the result set is [{'PASS_THROUGH'}]. *)
Definition QOperator_execute : M World (list string) :=
  run instantiate_application;
  ret ["PASS_THROUGH"].

Definition quit_blender : M World unit :=
  do n <- gets quit_requests;
  modify (set_quit_requests (S n)).

(** [app.should_close] on what [QApplication.instance()] gives: only the
    wrapper has the attribute; an unfinished wrapper has it since line
    75, still false. *)
Definition read_should_close (app : option QAppObj) : M World bool :=
  match app with
  | Some (Wrapper self) => ret (should_close self)
  | Some Unfinished => ret false
  | _ => raise AttributeError
  end.

Definition on_update : M World float :=
  do app <- gets qapp;
  do closing <- read_should_close app;
  run (if closing then quit_blender else ret tt);
  gets TICK.

(** [bpy.ops.qoperator.global_app()]: Blender finds the operator by its
    [bl_idname] once the class is registered, and runs [execute]. *)
Definition bpy_ops_qoperator_global_app : M World (list string) :=
  do classes <- gets registered_classes;
  if decide (QOperator ∈ classes) then QOperator_execute
  else raise AttributeError.

(** Truth value of what [os.getenv] returns: [None] and [''] are false. *)
Definition str_truthy (v : option string) : bool :=
  match v with
  | None => false
  | Some s => negb (String.eqb s "")
  end.

Definition create_global_app : M World unit :=
  do h <- gets host;
  if contains "startup" (module_file h) &&
     negb (str_truthy (getenv (environ h) "BQT_DISABLE_STARTUP")) then
    run bpy_ops_qoperator_global_app; ret tt
  else ret tt.

(** [bpy.utils.register_class] refuses a class that is registered
    ([ValueError]), and [bpy.utils.unregister_class] one that is not
    ([RuntimeError]): the errors the main block of the module catches. *)
Definition register_class (c : BpyClass) : M World unit :=
  do classes <- gets registered_classes;
  if decide (c ∈ classes) then raise ValueError
  else modify (set_registered_classes (classes ++ [c])).

(** [list.remove]: the first occurrence. *)
Fixpoint list_remove {A} `{EqDecision A} (x : A) (l : list A) : list A :=
  match l with
  | [] => []
  | y :: t => if decide (x = y) then t else y :: list_remove x t
  end.

Definition unregister_class (c : BpyClass) : M World unit :=
  do classes <- gets registered_classes;
  if decide (c ∈ classes) then
    modify (set_registered_classes (list_remove c classes))
  else raise RuntimeError.

Definition register : M World unit :=
  run register_class QOperator;
  do handlers <- gets load_post;
  if decide (Fn_create_global_app ∈ handlers) then ret tt
  else modify (set_load_post (handlers ++ [Fn_create_global_app])).

(** [l.remove(x)] on a list held in the state: [ValueError] when [x] is
    not in it. *)
Definition py_remove {S A} `{EqDecision A} (x : A) (l : list A)
    (put : list A -> S -> S) : M S unit :=
  if decide (x ∈ l) then modify (put (list_remove x l))
  else raise ValueError.

Definition unregister : M World unit :=
  run unregister_class QOperator;
  do handlers <- gets load_post;
  if decide (Fn_create_global_app ∈ handlers) then
    py_remove Fn_create_global_app handlers set_load_post
  else ret tt.

Definition onexit : M World unit :=
  do app <- gets qapp;
  match app with
  | Some _ => modify (set_quit_called true)
  | None => ret tt
  end.

(** [except (ValueError, TypeError, RuntimeError)]. *)
Definition main_block_catches (e : Exn) : bool :=
  match e with
  | ValueError | TypeError | RuntimeError => true
  | _ => false
  end.

(** Importing the module, up to the exit hook: the constant [TICK] and
    the hook. *)
Definition import_module : M World unit :=
  do h <- gets host;
  do tick <- (fun w => (TICK_at_import (environ h), w));
  run modify (set_TICK tick);
  do hooks <- gets atexit_hooks;
  modify (set_atexit_hooks (hooks ++ [Fn_onexit])).

(** The block under [if __name__ == '__main__']. *)
Definition main_block : M World unit :=
  run try_except unregister main_block_catches (fun _ => ret tt);
  register.

(** The module run as a script: the import, then the main block.  The
    class [QOperator] and the function [create_global_app] are the objects
    this run defines; what an earlier run registered are other classes and
    other callables. *)
Definition import_as_main : M World unit :=
  run import_module;
  main_block.

(** ** Event dispatch and the operations the host can run *)

Section Dispatch.

(** [QApplication.notify], the default handling the wrapper overrides: it
    answers for a receiver and an event, may accept or ignore the event
    and may change the widget (closing it hides it).  It is Qt's code and
    has no access to the attributes the wrapper adds. *)
Variable QApplication_notify : nat -> QEvent -> QWidget -> bool * QEvent * QWidget.

Definition super_notify (receiver : nat) (event : QEvent) : Method (bool * QEvent) :=
  do self <- get_self;
  let '(answer, event', widget') :=
    QApplication_notify receiver event (blender_widget self) in
  run update_widget (fun _ => widget');
  ret (answer, event').

Definition notify (receiver : nat) (event : QEvent) : Method (bool * QEvent) :=
  do self <- get_self;
  if is_QCloseEvent event && is_wrapped self receiver then
    let event := ignore event in
    run _store_window_geometry;
    run update_self (set_should_close true);
    ret (false, event)
  else super_notify receiver event.

(** What can happen to a loaded module: Qt delivers an event or a focus
    change to the wrapper, Blender runs the operator, a timer, the load
    handler or the exit hook, and the add-on is registered or
    unregistered. *)
Inductive Op : Type :=
| Op_notify (receiver : nat) (event : QEvent)
| Op_focus_object_changed (focus_object : nat)
| Op_set_window_geometry
| Op_store_window_geometry
| Op_instantiate_application
| Op_execute
| Op_on_update
| Op_create_global_app
| Op_register
| Op_unregister
| Op_onexit.

(** A method call on the application instance: the object is updated in
    place.  Without a wrapper instance there is no object to call. *)
Definition on_instance {A} (m : Method A) (w : World) : World :=
  match qapp w with
  | Some (Wrapper self) =>
      let '(_, (self', w')) := m (self, w) in
      set_qapp (Some (Wrapper self')) w'
  | _ => w
  end.

Definition run_op (op : Op) (w : World) : World :=
  match op with
  | Op_notify receiver event => on_instance (notify receiver event) w
  | Op_focus_object_changed o => on_instance (_on_focus_object_changed o) w
  | Op_set_window_geometry => on_instance _set_window_geometry w
  | Op_store_window_geometry => on_instance _store_window_geometry w
  | Op_instantiate_application => snd (instantiate_application w)
  | Op_execute => snd (QOperator_execute w)
  | Op_on_update => snd (on_update w)
  | Op_create_global_app => snd (create_global_app w)
  | Op_register => snd (register w)
  | Op_unregister => snd (unregister w)
  | Op_onexit => snd (onexit w)
  end.

Definition run_ops (ops : list Op) (w : World) : World :=
  fold_left (fun w op => run_op op w) ops w.

(** The close events the wrapper intercepts. *)
Definition intercepted (self : BlenderApplication) (op : Op) : bool :=
  match op with
  | Op_notify receiver event => is_QCloseEvent event && is_wrapped self receiver
  | _ => false
  end.

End Dispatch.

(** ** Sample hosts and worlds *)

Definition no_tick : float := S754_zero false.

(** A world in which the module has not run yet. *)
Definition fresh_world (h : Host) : World :=
  mkWorld h no_tick [] None ∅ None None 0 None false [] [] [] 0.

Definition windows_host : Host :=
  mkHost "Windows" ∅ "C:\blender\2.80\scripts\startup\bqt.py" "C:\Temp" ""
         65552
         [(4, None); (812, Some "C:\Windows\explorer.exe");
          (2040, Some "C:\Program Files\Blender Foundation\blender.exe")].

Definition linux_host : Host :=
  mkHost "Linux" ∅ "/opt/blender/2.80/scripts/startup/bqt.py" "/tmp" "" 0 [].

Definition mac_host : Host :=
  mkHost "Darwin" ∅ "/Applications/Blender.app/Contents/Resources/2.80/scripts/startup/bqt.py"
         "/tmp" "/Applications/Blender.app/Contents" 4302 [].

(** Default handling that accepts the event and, for a close event, hides
    the widget. *)
Definition closing_notify (receiver : nat) (event : QEvent) (wd : QWidget)
    : bool * QEvent * QWidget :=
  (true, mkQEvent (event_class event) true,
   if is_QCloseEvent event
   then mkQWidget (widget_id wd) (geometry wd) (isMaximized wd) (isFullScreen wd) false
   else wd).

(** ** Reading the persisted window state

    What the restore operation sees in a store: a flag counts as set when
    its text is [true] in any letter case; the geometry is the rectangle
    under its key, or the default rectangle when the key is absent. *)

Definition DEFAULT_GEOMETRY : QRect := mkQRect 0 0 640 480.

Definition persisted_flag (store : gmap string QVariant) (key : string) : bool :=
  match QSettings_value store SETTINGS_WINDOW_GROUP_NAME key (VString "false") with
  | VString s => String.eqb (lower s) "true"
  | _ => false
  end.

Definition persisted_geometry (store : gmap string QVariant) : QRect :=
  match QSettings_value store SETTINGS_WINDOW_GROUP_NAME SETTINGS_KEY_GEOMETRY
                        (VRect DEFAULT_GEOMETRY) with
  | VRect r => r
  | _ => DEFAULT_GEOMETRY
  end.

Definition is_text (v : QVariant) : bool :=
  match v with VString _ => true | _ => false end.

Definition is_rect (v : QVariant) : bool :=
  match v with VRect _ => true | _ => false end.

(** A store as a session finds it where the back end keeps text: each of
    the three keys is absent or holds what is kept of what the store
    operation wrote there (text for the flags, a rectangle for the
    geometry). *)
Definition stored_state (store : gmap string QVariant) : bool :=
  is_text (QSettings_value store SETTINGS_WINDOW_GROUP_NAME SETTINGS_KEY_FULL_SCREEN
                           (VString "false")) &&
  is_text (QSettings_value store SETTINGS_WINDOW_GROUP_NAME SETTINGS_KEY_MAXIMIZED
                           (VString "false")) &&
  is_rect (QSettings_value store SETTINGS_WINDOW_GROUP_NAME SETTINGS_KEY_GEOMETRY
                           (VRect DEFAULT_GEOMETRY)).

(** The widget after the restore operation, by priority. *)
Definition restored_widget (store : gmap string QVariant) (wd : QWidget) : QWidget :=
  if persisted_flag store SETTINGS_KEY_FULL_SCREEN then showFullScreen wd
  else if persisted_flag store SETTINGS_KEY_MAXIMIZED then showMaximized wd
  else show (setGeometry (persisted_geometry store) wd).

(** A widget with a given geometry and window state, shown. *)
Definition widget_in_state (id : nat) (r : QRect) (maximized full_screen : bool) : QWidget :=
  mkQWidget id r maximized full_screen true.

(** The world of the session that follows [w]: what the back end kept of
    the settings. *)
Definition next_session (w : World) : World :=
  set_settings (reopened (host w) (settings w)) w.

(** A session's end and the next session's start: the first object stores
    its window state, the second restores from the store it finds. *)
Definition store_then_restore (old new : BlenderApplication) (w : World)
    : Outcome unit * Self :=
  let '(_, (_, w')) := _store_window_geometry (old, w) in
  _set_window_geometry (new, next_session w').

Definition sample_app : BlenderApplication :=
  mkBlenderApplication false 65552 0 (widget_in_state 1 (mkQRect 40 60 1280 720) false false) true.

Definition sample_world : World :=
  set_qapp (Some (Wrapper sample_app)) (fresh_world windows_host).

(** A session that ends maximized and full-screen at (10,20,300,200), and
    the object of the session that follows. *)
Definition closing_app : BlenderApplication :=
  mkBlenderApplication false 65552 0 (widget_in_state 1 (mkQRect 10 20 300 200) true true) true.

Definition next_app : BlenderApplication :=
  mkBlenderApplication false 65552 0 (new_widget 1) false.

(** [1.0 / 30.0] in binary64: 4803839602528529 * 2^-57. *)
Definition default_period : float := S754_finite false 4803839602528529 (-57).

(** A host started with [BQT_TICK_RATE] set to a text. *)
Definition host_with_tick_rate (text : string) : Host :=
  mkHost "Windows" {[ "BQT_TICK_RATE" := text ]}
         "C:\blender\2.80\scripts\startup\bqt.py" "C:\Temp" "" 65552 [].

(** The text of the given UTF-8 bytes. *)
Definition utf8_text (bytes : list N) : string :=
  string_of_list_ascii (map ascii_of_N bytes).

(** Thirty in Arabic-Indic digits, U+0663 U+0660; and [30] after a
    no-break space, U+00A0. *)
Definition arabic_indic_thirty : string := utf8_text [217; 163; 217; 160]%N.
Definition no_break_space_thirty : string := utf8_text [194; 160; 51; 48]%N.

(** A host started with [BQT_DISABLE_STARTUP] set to a text, the module
    being in a [startup] directory. *)
Definition host_with_disable_startup (text : string) : Host :=
  mkHost "Windows" {[ "BQT_DISABLE_STARTUP" := text ]}
         "C:\blender\2.80\scripts\startup\bqt.py" "C:\Temp" "" 65552 [].

(** A Windows host on which no process is Blender's. *)
Definition host_without_blender_process : Host :=
  mkHost "Windows" ∅ "C:\blender\2.80\scripts\startup\bqt.py" "C:\Temp" ""
         65552 [(4, None); (812, Some "C:\Windows\explorer.exe")].

(** That host, with the icon file an earlier session saved still in the
    temporary directory. *)
Definition stale_icon_world : World :=
  set_temp_icon (Some "C:\Program Files\Blender Foundation\blender.exe")
                (fresh_world host_without_blender_process).

(** The world once the add-on is registered. *)
Definition registered_world (h : Host) : World :=
  set_load_post [Fn_create_global_app] (set_registered_classes [QOperator] (fresh_world h)).

(** How many times a class is registered, a handler listed. *)
Definition class_count (c : BpyClass) (w : World) : nat :=
  count_occ BpyClass_eq_dec (registered_classes w) c.

Definition handler_count (f : Callable) (w : World) : nat :=
  count_occ Callable_eq_dec (load_post w) f.

Definition timer_count (f : Callable) (w : World) : nat :=
  count_occ Callable_eq_dec (timers w) f.

(** No process of the host has [blender] in the name of its executable. *)
Definition no_blender_process (h : Host) : bool :=
  forallb (fun p : Z * option string =>
             match snd p with
             | Some exe => negb (contains "blender" (lower exe))
             | None => true
             end) (processes h).

(** ** Frame conditions

    [preserves R m]: whatever [m] does, normally or by raising, the state
    it leaves is related by [R] to the state it started from. *)

Definition preserves {S A} (R : S -> S -> Prop) (m : M S A) : Prop :=
  forall s, R s (snd (m s)).

(** The part [f] of the state is left as it was. *)
Definition kept {S B} (f : S -> B) : S -> S -> Prop :=
  fun s s' => f s' = f s.

(** An application instance, once there, stays the instance. *)
Definition instance_kept : World -> World -> Prop :=
  fun w w' => forall app, qapp w = Some app -> qapp w' = Some app.

(** [n] calls of [instantiate_application] in a row. *)
Definition instantiate_times (n : nat) (w : World) : World :=
  Nat.iter n (fun w => snd (instantiate_application w)) w.

(** ** Runs of the tick callback and what operations write *)

(** [n] ticks in a row. *)
Definition tick_times (n : nat) (w : World) : World :=
  Nat.iter n (fun w => snd (on_update w)) w.

(** The operations that write the settings: the store operation, and a
    close event the instance intercepts. *)
Definition writes_settings (w : World) (op : Op) : bool :=
  match op with
  | Op_store_window_geometry => true
  | Op_notify receiver event =>
      match qapp w with
      | Some (Wrapper self) => is_QCloseEvent event && is_wrapped self receiver
      | _ => false
      end
  | _ => false
  end.

(** At most one tick timer, and none before there is an instance. *)
Definition one_timer (w : World) : Prop :=
  (timer_count Fn_on_update w <= 1)%nat /\
  (qapp w = None -> timer_count Fn_on_update w = 0%nat).

(** The command class and the load handler are each registered at most
    once. *)
Definition registered_once (w : World) : Prop :=
  (class_count QOperator w <= 1)%nat /\
  (handler_count Fn_create_global_app w <= 1)%nat.

(** A host on a platform the module has no branch for. *)
Definition freebsd_host : Host :=
  mkHost "FreeBSD" ∅ "/usr/local/share/blender/scripts/startup/bqt.py" "/tmp" "" 0 [].

(** A Windows host running two Blenders, one under an upper-case name, and
    a process that cannot be opened between them. *)
Definition host_with_two_blenders : Host :=
  mkHost "Windows" ∅ "C:\blender\2.80\scripts\startup\bqt.py" "C:\Temp" "" 65552
         [(4, None); (900, Some "C:\Tools\Blender-2.79\blender.exe"); (904, None);
          (2040, Some "C:\Program Files\Blender Foundation\BLENDER.EXE");
          (2100, Some "C:\Windows\explorer.exe")].

(** * Properties *)

(** ** Persisting the window state *)

Lemma settings_keys_distinct :
  settings_key SETTINGS_WINDOW_GROUP_NAME SETTINGS_KEY_GEOMETRY <>
    settings_key SETTINGS_WINDOW_GROUP_NAME SETTINGS_KEY_MAXIMIZED /\
  settings_key SETTINGS_WINDOW_GROUP_NAME SETTINGS_KEY_GEOMETRY <>
    settings_key SETTINGS_WINDOW_GROUP_NAME SETTINGS_KEY_FULL_SCREEN /\
  settings_key SETTINGS_WINDOW_GROUP_NAME SETTINGS_KEY_MAXIMIZED <>
    settings_key SETTINGS_WINDOW_GROUP_NAME SETTINGS_KEY_FULL_SCREEN.
Proof. repeat split; discriminate. Qed.

Lemma value_setValue_same (store : gmap string QVariant) (key : string) (v d : QVariant) :
  QSettings_value (QSettings_setValue store SETTINGS_WINDOW_GROUP_NAME key v)
                  SETTINGS_WINDOW_GROUP_NAME key d = v.
Proof.
  unfold QSettings_value, QSettings_setValue.
  now rewrite lookup_insert_eq.
Qed.

Lemma value_setValue_other (store : gmap string QVariant) (k k' : string) (v d : QVariant) :
  settings_key SETTINGS_WINDOW_GROUP_NAME k <> settings_key SETTINGS_WINDOW_GROUP_NAME k' ->
  QSettings_value (QSettings_setValue store SETTINGS_WINDOW_GROUP_NAME k v)
                  SETTINGS_WINDOW_GROUP_NAME k' d =
  QSettings_value store SETTINGS_WINDOW_GROUP_NAME k' d.
Proof.
  intros Hne. unfold QSettings_value, QSettings_setValue.
  now rewrite lookup_insert_ne.
Qed.

(** The store operation never raises, leaves the object alone and changes
    nothing of the world but the settings. *)
Lemma store_window_geometry_run (self : BlenderApplication) (w : World) :
  _store_window_geometry (self, w) =
    (Ok tt, (self, set_settings (stored_settings (blender_widget self) (settings w)) w)).
Proof. reflexivity. Qed.

(** Reading the three keys back after the store operation. *)
Lemma stored_settings_read (wd : QWidget) (store : gmap string QVariant) (d : QVariant) :
  QSettings_value (stored_settings wd store)
      SETTINGS_WINDOW_GROUP_NAME SETTINGS_KEY_GEOMETRY d = VRect (geometry wd) /\
  QSettings_value (stored_settings wd store)
      SETTINGS_WINDOW_GROUP_NAME SETTINGS_KEY_MAXIMIZED d = VBool (isMaximized wd) /\
  QSettings_value (stored_settings wd store)
      SETTINGS_WINDOW_GROUP_NAME SETTINGS_KEY_FULL_SCREEN d = VBool (isFullScreen wd).
Proof.
  destruct settings_keys_distinct as (Hgm & Hgf & Hmf).
  unfold stored_settings. repeat split.
  - rewrite value_setValue_other by (intro E; symmetry in E; contradiction).
    rewrite value_setValue_other by (intro E; symmetry in E; contradiction).
    now rewrite value_setValue_same.
  - rewrite value_setValue_other by (intro E; symmetry in E; contradiction).
    now rewrite value_setValue_same.
  - now rewrite value_setValue_same.
Qed.

(** ** C1: close interception *)

(** The two branches of [notify]. *)
Lemma notify_close_interception_steps
      (QApplication_notify : nat -> QEvent -> QWidget -> bool * QEvent * QWidget)
      (receiver : nat) (event : QEvent) (self : BlenderApplication) (w : World) :
  (is_QCloseEvent event = true -> is_wrapped self receiver = true ->
     notify QApplication_notify receiver event (self, w) =
       (Ok (false, ignore event),
        (set_should_close true self,
         set_settings (stored_settings (blender_widget self) (settings w)) w)))
  /\
  (is_QCloseEvent event && is_wrapped self receiver = false ->
     notify QApplication_notify receiver event (self, w) =
       super_notify QApplication_notify receiver event (self, w)).
Proof.
  split.
  - intros Hc Hr. unfold notify, bind, get_self, gets. cbn [fst snd].
    rewrite Hc, Hr. reflexivity.
  - intros Hn. unfold notify, bind, get_self, gets. cbn [fst snd]. now rewrite Hn.
Qed.

(** C1.  For every event dispatched through [notify]: a close event whose
    receiver is the container widget or the wrapped window is ignored, the
    widget's geometry and window state are written to the settings,
    [should_close] becomes true and [notify] answers [False] without
    calling the default handling; for every other event and receiver
    [notify] is the default handling on the same receiver and event. *)
Theorem notify_close_interception :
  forall (QApplication_notify : nat -> QEvent -> QWidget -> bool * QEvent * QWidget)
         (receiver : nat) (event : QEvent) (self : BlenderApplication) (w : World),
    (is_QCloseEvent event = true -> is_wrapped self receiver = true ->
       notify QApplication_notify receiver event (self, w) =
         (Ok (false, ignore event),
          (set_should_close true self,
           set_settings (stored_settings (blender_widget self) (settings w)) w)) /\
       snd (_store_window_geometry (self, w)) =
         (self, set_settings (stored_settings (blender_widget self) (settings w)) w) /\
       forall d,
         QSettings_value (stored_settings (blender_widget self) (settings w))
           SETTINGS_WINDOW_GROUP_NAME SETTINGS_KEY_GEOMETRY d =
         VRect (geometry (blender_widget self)))
    /\
    (is_QCloseEvent event && is_wrapped self receiver = false ->
       notify QApplication_notify receiver event (self, w) =
         super_notify QApplication_notify receiver event (self, w) /\
       notify QApplication_notify receiver event (self, w) =
         let '(answer, event', widget') :=
           QApplication_notify receiver event (blender_widget self) in
         (Ok (answer, event'), (set_blender_widget widget' self, w))).
Proof.
  intros QApplication_notify receiver event self w.
  destruct (notify_close_interception_steps QApplication_notify receiver event self w)
    as [Hyes Hno].
  split.
  - intros Hc Hr. split; [| split].
    + now apply Hyes.
    + reflexivity.
    + intros d. apply stored_settings_read.
  - intros Hn. split.
    + now apply Hno.
    + rewrite (Hno Hn).
      unfold super_notify, bind, get_self, gets. cbn [fst snd].
      destruct (QApplication_notify receiver event (blender_widget self)) as [[a e'] wd'].
      reflexivity.
Qed.

Lemma notify_close_interception_witness :
  notify closing_notify 1 (mkQEvent QCloseEvent true) (sample_app, sample_world) =
    (Ok (false, mkQEvent QCloseEvent false),
     (set_should_close true sample_app,
      set_settings (stored_settings (blender_widget sample_app) (settings sample_world))
                   sample_world)) /\
  notify closing_notify 7 (mkQEvent QCloseEvent true) (sample_app, sample_world) =
    super_notify closing_notify 7 (mkQEvent QCloseEvent true) (sample_app, sample_world).
Proof.
  split.
  - apply (notify_close_interception closing_notify 1 (mkQEvent QCloseEvent true)
             sample_app sample_world); reflexivity.
  - apply (notify_close_interception closing_notify 7 (mkQEvent QCloseEvent true)
             sample_app sample_world); reflexivity.
Defined.

(** ** C2: priority order of the restore operation *)

(** The restore operation, read off its three reads of the store. *)
Lemma set_window_geometry_run (self : BlenderApplication) (w : World) :
  _set_window_geometry (self, w) =
    match QSettings_value (settings w) SETTINGS_WINDOW_GROUP_NAME
                          SETTINGS_KEY_FULL_SCREEN (VString "false") with
    | VString fs =>
        if String.eqb (lower fs) "true" then
          (Ok tt, (set_blender_widget (showFullScreen (blender_widget self)) self, w))
        else
          match QSettings_value (settings w) SETTINGS_WINDOW_GROUP_NAME
                                SETTINGS_KEY_MAXIMIZED (VString "false") with
          | VString mx =>
              if String.eqb (lower mx) "true" then
                (Ok tt, (set_blender_widget (showMaximized (blender_widget self)) self, w))
              else
                match QSettings_value (settings w) SETTINGS_WINDOW_GROUP_NAME
                                      SETTINGS_KEY_GEOMETRY (VRect DEFAULT_GEOMETRY) with
                | VRect r =>
                    (Ok tt,
                     (set_blender_widget (show (setGeometry r (blender_widget self))) self, w))
                | _ => (Raise TypeError, (self, w))
                end
          | _ => (Raise AttributeError, (self, w))
          end
    | _ => (Raise AttributeError, (self, w))
    end.
Proof.
  unfold _set_window_geometry, settings_read, bind, get_world, gets, ret.
  cbn [fst snd]. fold DEFAULT_GEOMETRY.
  destruct (QSettings_value (settings w) _ SETTINGS_KEY_FULL_SCREEN _) as [b|fs|r];
    try reflexivity.
  cbn [py_lower ret].
  destruct (String.eqb (lower fs) "true"); [reflexivity|].
  cbn [fst snd].
  destruct (QSettings_value (settings w) _ SETTINGS_KEY_MAXIMIZED _) as [b|mx|r];
    try reflexivity.
  cbn [py_lower ret].
  destruct (String.eqb (lower mx) "true"); [reflexivity|].
  cbn [fst snd].
  destruct (QSettings_value (settings w) _ SETTINGS_KEY_GEOMETRY _) as [b|s|r];
    reflexivity.
Qed.

(** On a stored state the restore operation does not raise and leaves the
    widget as [restored_widget] says. *)
Lemma set_window_geometry_stored (self : BlenderApplication) (w : World) :
  stored_state (settings w) = true ->
  _set_window_geometry (self, w) =
    (Ok tt, (set_blender_widget (restored_widget (settings w) (blender_widget self)) self, w)).
Proof.
  intros Hst. rewrite set_window_geometry_run.
  unfold stored_state in Hst. unfold restored_widget, persisted_flag, persisted_geometry.
  apply andb_prop in Hst as [Hst Hg]. apply andb_prop in Hst as [Hf Hm].
  destruct (QSettings_value (settings w) _ SETTINGS_KEY_FULL_SCREEN _) as [b|fs|r];
    try discriminate.
  destruct (String.eqb (lower fs) "true"); [reflexivity|].
  destruct (QSettings_value (settings w) _ SETTINGS_KEY_MAXIMIZED _) as [b|mx|r];
    try discriminate.
  destruct (String.eqb (lower mx) "true"); [reflexivity|].
  destruct (QSettings_value (settings w) _ SETTINGS_KEY_GEOMETRY _) as [b|s|r];
    try discriminate.
  reflexivity.
Qed.

(** C2.  For every stored settings state the restore operation applies
    exactly one of three outcomes, in priority order: when the persisted
    full-screen value is true the widget is shown full-screen, whatever the
    maximized and geometry values; otherwise when the persisted maximized
    value is true it is shown maximized, whatever the geometry; otherwise
    the persisted rectangle, (0,0,640,480) when none is stored, is applied
    and the widget is shown. *)
Theorem set_window_geometry_priority :
  forall (self : BlenderApplication) (w : World),
    stored_state (settings w) = true ->
    let store := settings w in
    let wd := blender_widget self in
    let done (wd' : QWidget) := (Ok tt, (set_blender_widget wd' self, w)) in
    (persisted_flag store SETTINGS_KEY_FULL_SCREEN = true ->
       _set_window_geometry (self, w) = done (showFullScreen wd)) /\
    (persisted_flag store SETTINGS_KEY_FULL_SCREEN = false ->
     persisted_flag store SETTINGS_KEY_MAXIMIZED = true ->
       _set_window_geometry (self, w) = done (showMaximized wd)) /\
    (persisted_flag store SETTINGS_KEY_FULL_SCREEN = false ->
     persisted_flag store SETTINGS_KEY_MAXIMIZED = false ->
       _set_window_geometry (self, w) =
         done (show (setGeometry (persisted_geometry store) wd))) /\
    (store !! settings_key SETTINGS_WINDOW_GROUP_NAME SETTINGS_KEY_GEOMETRY = None ->
       persisted_geometry store = mkQRect 0 0 640 480).
Proof.
  intros self w Hst store wd done.
  pose proof (set_window_geometry_stored self w Hst) as Hrun.
  unfold restored_widget in Hrun. fold store wd in Hrun.
  repeat split.
  - intros Hfs. rewrite Hrun, Hfs. reflexivity.
  - intros Hfs Hmx. rewrite Hrun, Hfs, Hmx. reflexivity.
  - intros Hfs Hmx. rewrite Hrun, Hfs, Hmx. reflexivity.
  - intros Hnone. unfold persisted_geometry, QSettings_value. now rewrite Hnone.
Qed.

Lemma set_window_geometry_priority_witness :
  _set_window_geometry
    (next_app,
     set_settings (reopened windows_host (stored_settings (blender_widget closing_app) ∅))
                  (fresh_world windows_host)) =
    (Ok tt,
     (set_blender_widget (showFullScreen (blender_widget next_app)) next_app,
      set_settings (reopened windows_host (stored_settings (blender_widget closing_app) ∅))
                   (fresh_world windows_host)))
  /\
  _set_window_geometry (next_app, fresh_world windows_host) =
    (Ok tt,
     (set_blender_widget (show (setGeometry (mkQRect 0 0 640 480) (blender_widget next_app)))
                         next_app,
      fresh_world windows_host)).
Proof.
  split.
  - apply (set_window_geometry_priority next_app
             (set_settings
                (reopened windows_host (stored_settings (blender_widget closing_app) ∅))
                (fresh_world windows_host))); reflexivity.
  - apply (set_window_geometry_priority next_app (fresh_world windows_host));
      reflexivity.
Defined.

(** ** C5: storing and restoring *)

Lemma stored_settings_lookup (wd : QWidget) (store : gmap string QVariant) :
  stored_settings wd store !! settings_key SETTINGS_WINDOW_GROUP_NAME SETTINGS_KEY_GEOMETRY
    = Some (VRect (geometry wd)) /\
  stored_settings wd store !! settings_key SETTINGS_WINDOW_GROUP_NAME SETTINGS_KEY_MAXIMIZED
    = Some (VBool (isMaximized wd)) /\
  stored_settings wd store !! settings_key SETTINGS_WINDOW_GROUP_NAME SETTINGS_KEY_FULL_SCREEN
    = Some (VBool (isFullScreen wd)).
Proof.
  unfold stored_settings, QSettings_setValue. rewrite !lookup_insert.
  repeat split; repeat case_decide; try reflexivity; discriminate.
Qed.

(** The three keys as a later session on a text back end finds them after
    the store operation. *)
Lemma reopened_stored_settings_read (h : Host) (wd : QWidget)
      (store : gmap string QVariant) (d : QVariant) :
  IS_MAC h = false ->
  QSettings_value (reopened h (stored_settings wd store))
      SETTINGS_WINDOW_GROUP_NAME SETTINGS_KEY_GEOMETRY d = VRect (geometry wd) /\
  QSettings_value (reopened h (stored_settings wd store))
      SETTINGS_WINDOW_GROUP_NAME SETTINGS_KEY_MAXIMIZED d =
    VString (if isMaximized wd then "true" else "false") /\
  QSettings_value (reopened h (stored_settings wd store))
      SETTINGS_WINDOW_GROUP_NAME SETTINGS_KEY_FULL_SCREEN d =
    VString (if isFullScreen wd then "true" else "false").
Proof.
  intros Hmac. destruct (stored_settings_lookup wd store) as (Hg & Hm & Hf).
  unfold reopened, QSettings_value. rewrite Hmac, !lookup_fmap, Hg, Hm, Hf.
  repeat split.
Qed.

(** What the restore operation sees there. *)
Lemma stored_settings_persisted (h : Host) (wd : QWidget) (store : gmap string QVariant) :
  IS_MAC h = false ->
  persisted_geometry (reopened h (stored_settings wd store)) = geometry wd /\
  persisted_flag (reopened h (stored_settings wd store)) SETTINGS_KEY_MAXIMIZED
    = isMaximized wd /\
  persisted_flag (reopened h (stored_settings wd store)) SETTINGS_KEY_FULL_SCREEN
    = isFullScreen wd.
Proof.
  intros Hmac.
  destruct (reopened_stored_settings_read h wd store (VRect DEFAULT_GEOMETRY) Hmac)
    as (Hg & _ & _).
  destruct (reopened_stored_settings_read h wd store (VString "false") Hmac)
    as (_ & Hm & Hf).
  unfold persisted_geometry, persisted_flag. rewrite Hg, Hm, Hf.
  repeat split; [now destruct (isMaximized wd) | now destruct (isFullScreen wd)].
Qed.

(** After the store operation a later session on a text back end finds a
    stored state. *)
Lemma stored_settings_stored_state (h : Host) (wd : QWidget) (store : gmap string QVariant) :
  IS_MAC h = false ->
  stored_state (reopened h (stored_settings wd store)) = true.
Proof.
  intros Hmac.
  destruct (reopened_stored_settings_read h wd store (VRect DEFAULT_GEOMETRY) Hmac)
    as (Hg & _ & _).
  destruct (reopened_stored_settings_read h wd store (VString "false") Hmac)
    as (_ & Hm & Hf).
  unfold stored_state. rewrite Hg, Hm, Hf. reflexivity.
Qed.

(** C5, as amended.  For every rectangle and every combination of the two
    booleans, the store operation leaves the three values under their
    keys.  A later session on a host other than macOS finds the rectangle
    and, as the text [true] or [false], the two flags; there the restore
    operation applies them in priority order, so the restored widget is
    full-screen exactly when full-screen was stored, maximized exactly
    when maximized was stored and full-screen was not, and gets the stored
    rectangle, its sides bounded by the widget's size limits, exactly when
    neither was stored.  On macOS the flags come back as booleans, and the
    restore operation, which the constructor does not run there, raises
    [AttributeError] and leaves the widget alone. *)
Theorem settings_round_trip :
  forall (old new : BlenderApplication) (id : nat) (w : World),
    let r := geometry (blender_widget old) in
    let mx := isMaximized (blender_widget old) in
    let fs := isFullScreen (blender_widget old) in
    let store' := stored_settings (blender_widget old) (settings w) in
    let found := reopened (host w) store' in
    let wd := new_widget id in
    let wd' := if fs then showFullScreen wd
               else if mx then showMaximized wd
               else show (setGeometry r wd) in
    snd (snd (_store_window_geometry (old, w))) = set_settings store' w /\
    (forall d, QSettings_value store' SETTINGS_WINDOW_GROUP_NAME SETTINGS_KEY_GEOMETRY d
               = VRect r) /\
    (forall d, QSettings_value store' SETTINGS_WINDOW_GROUP_NAME SETTINGS_KEY_MAXIMIZED d
               = VBool mx) /\
    (forall d, QSettings_value store' SETTINGS_WINDOW_GROUP_NAME SETTINGS_KEY_FULL_SCREEN d
               = VBool fs) /\
    (IS_MAC (host w) = false ->
       (forall d, QSettings_value found SETTINGS_WINDOW_GROUP_NAME SETTINGS_KEY_GEOMETRY d
                  = VRect r) /\
       (forall d, QSettings_value found SETTINGS_WINDOW_GROUP_NAME SETTINGS_KEY_MAXIMIZED d
                  = VString (if mx then "true" else "false")) /\
       (forall d, QSettings_value found SETTINGS_WINDOW_GROUP_NAME SETTINGS_KEY_FULL_SCREEN d
                  = VString (if fs then "true" else "false")) /\
       store_then_restore old (set_blender_widget wd new) w =
         (Ok tt, (set_blender_widget wd' new, set_settings found w)) /\
       isFullScreen wd' = fs /\
       isMaximized wd' = mx && negb fs /\
       geometry wd' =
         (if fs || mx then mkQRect 0 0 640 480
          else mkQRect (rect_x r) (rect_y r)
                       (Z.max (Z.min (rect_width r) 16777215) 0)
                       (Z.max (Z.min (rect_height r) 16777215) 0))) /\
    (IS_MAC (host w) = true ->
       (forall d, QSettings_value found SETTINGS_WINDOW_GROUP_NAME SETTINGS_KEY_FULL_SCREEN d
                  = VBool fs) /\
       store_then_restore old new w = (Raise AttributeError, (new, set_settings found w))).
Proof.
  intros old new id w r mx fs store' found wd wd'.
  split; [reflexivity|].
  split; [intros d; apply stored_settings_read|].
  split; [intros d; apply (stored_settings_read (blender_widget old) (settings w) d)|].
  split; [intros d; apply (stored_settings_read (blender_widget old) (settings w) d)|].
  split.
  - intros Hmac.
    split; [intros d; now apply reopened_stored_settings_read|].
    split; [intros d; now apply (reopened_stored_settings_read (host w)
                                   (blender_widget old) (settings w) d)|].
    split; [intros d; now apply (reopened_stored_settings_read (host w)
                                   (blender_widget old) (settings w) d)|].
    split; [| split; [| split]].
    + unfold store_then_restore. rewrite store_window_geometry_run.
      unfold next_session. cbn [settings set_settings host].
      rewrite set_window_geometry_stored
        by (cbn [settings set_settings]; now apply stored_settings_stored_state).
      cbn [settings set_settings]. unfold restored_widget.
      destruct (stored_settings_persisted (host w) (blender_widget old) (settings w) Hmac)
        as (Hg & Hm & Hf).
      rewrite Hg, Hm, Hf. reflexivity.
    + subst wd'. destruct fs, mx; reflexivity.
    + subst wd'. destruct fs, mx; reflexivity.
    + subst wd'. destruct fs, mx; reflexivity.
  - intros Hmac.
    assert (Hfound : forall d,
               QSettings_value found SETTINGS_WINDOW_GROUP_NAME SETTINGS_KEY_FULL_SCREEN d
               = VBool fs).
    { intros d. subst found. unfold reopened. rewrite Hmac.
      apply (stored_settings_read (blender_widget old) (settings w) d). }
    split; [exact Hfound|].
    unfold store_then_restore. rewrite store_window_geometry_run.
    unfold next_session. cbn [settings set_settings host].
    rewrite set_window_geometry_run. cbn [settings set_settings].
    fold store' found. now rewrite Hfound.
Qed.

Lemma settings_round_trip_witness :
  store_then_restore
    (set_blender_widget (widget_in_state 1 (mkQRect 10 20 300 200) false false) closing_app)
    next_app (fresh_world windows_host) =
    (Ok tt,
     (set_blender_widget (mkQWidget 1 (mkQRect 10 20 300 200) false false true) next_app,
      set_settings
        (reopened windows_host
           (stored_settings (widget_in_state 1 (mkQRect 10 20 300 200) false false) ∅))
        (fresh_world windows_host))) /\
  store_then_restore closing_app next_app (fresh_world mac_host) =
    (Raise AttributeError,
     (next_app,
      set_settings (reopened mac_host (stored_settings (blender_widget closing_app) ∅))
                   (fresh_world mac_host))).
Proof.
  split.
  - destruct (settings_round_trip
                (set_blender_widget (widget_in_state 1 (mkQRect 10 20 300 200) false false)
                                    closing_app)
                next_app 1 (fresh_world windows_host))
      as (_ & _ & _ & _ & Hwin & _).
    destruct (Hwin eq_refl) as (_ & _ & _ & Hrun & _). exact Hrun.
  - destruct (settings_round_trip closing_app next_app 1 (fresh_world mac_host))
      as (_ & _ & _ & _ & _ & Hmac).
    destruct (Hmac eq_refl) as (_ & Hrun). exact Hrun.
Defined.

(** C5 as stated fails: a session that ends maximized and full-screen at
    (10,20,300,200) is restored full-screen only; the restored widget is
    not maximized and does not have the stored geometry. *)
Lemma settings_round_trip_counterexample :
  fst (store_then_restore closing_app next_app (fresh_world windows_host)) = Ok tt /\
  blender_widget (fst (snd (store_then_restore closing_app next_app (fresh_world windows_host))))
    = mkQWidget 1 (mkQRect 0 0 640 480) false true true /\
  isMaximized (blender_widget closing_app) = true /\
  geometry (blender_widget closing_app) = mkQRect 10 20 300 200 /\
  ~ (isMaximized
       (blender_widget
          (fst (snd (store_then_restore closing_app next_app (fresh_world windows_host)))))
       = isMaximized (blender_widget closing_app) /\
     geometry
       (blender_widget
          (fst (snd (store_then_restore closing_app next_app (fresh_world windows_host)))))
       = geometry (blender_widget closing_app)).
Proof.
  repeat split; try reflexivity.
  intros [H _]. vm_compute in H. discriminate H.
Qed.

(** ** C3: the tick period *)

Lemma TICK_at_import_set (env : gmap string string) (text : string) (rate : float) :
  getenv env "BQT_TICK_RATE" = Some text ->
  py_float text = Some rate ->
  TICK_at_import env = py_truediv float_one rate.
Proof.
  intros Henv Hrate. unfold TICK_at_import, getenv_default.
  now rewrite Henv, Hrate.
Qed.

Lemma TICK_at_import_unset (env : gmap string string) :
  getenv env "BQT_TICK_RATE" = None ->
  TICK_at_import env = Ok default_period.
Proof.
  intros Henv. unfold TICK_at_import, getenv_default. rewrite Henv.
  vm_compute. reflexivity.
Qed.

Lemma TICK_at_import_not_numeric (env : gmap string string) (text : string) :
  getenv env "BQT_TICK_RATE" = Some text ->
  py_float text = None ->
  TICK_at_import env = Raise ValueError.
Proof.
  intros Henv Hrate. unfold TICK_at_import, getenv_default.
  now rewrite Henv, Hrate.
Qed.

(** C3 as stated fails: with [BQT_TICK_RATE=fast] the constant is not the
    default period; evaluating it raises [ValueError], so importing the
    module fails and there is no callback to return anything. *)
Lemma tick_period_counterexample :
  py_float "fast" = None /\
  TICK_at_import (environ (host_with_tick_rate "fast")) = Raise ValueError /\
  (TICK_at_import (environ (host_with_tick_rate "fast")) <> Ok default_period) /\
  fst (import_module (fresh_world (host_with_tick_rate "fast"))) = Raise ValueError.
Proof.
  assert (Hv : TICK_at_import (environ (host_with_tick_rate "fast")) = Raise ValueError)
    by (vm_compute; reflexivity).
  split; [vm_compute; reflexivity|].
  split; [exact Hv|].
  split; [| vm_compute; reflexivity].
  intros H. rewrite Hv in H. discriminate H.
Qed.

(** ** C4: registration *)

Lemma register_class_run (c : BpyClass) (w : World) :
  register_class c w =
    if decide (c ∈ registered_classes w) then (Raise ValueError, w)
    else (Ok tt, set_registered_classes (registered_classes w ++ [c]) w).
Proof.
  unfold register_class, bind, gets. now destruct (decide _).
Qed.

Lemma unregister_class_run (c : BpyClass) (w : World) :
  unregister_class c w =
    if decide (c ∈ registered_classes w)
    then (Ok tt, set_registered_classes (list_remove c (registered_classes w)) w)
    else (Raise RuntimeError, w).
Proof.
  unfold unregister_class, bind, gets. now destruct (decide _).
Qed.

Lemma count_occ_absent {A} (dec : forall x y : A, {x = y} + {x <> y}) (l : list A) (x : A) :
  x ∉ l -> count_occ dec l x = 0%nat.
Proof.
  intros Hx. apply count_occ_not_In. intros Hin. apply Hx.
  now apply list_elem_of_In.
Qed.

Lemma count_occ_append_one {A} (dec : forall x y : A, {x = y} + {x <> y}) (l : list A) (x : A) :
  count_occ dec (l ++ [x]) x = S (count_occ dec l x).
Proof.
  rewrite count_occ_app. cbn. destruct (dec x x); [lia | contradiction].
Qed.

Lemma register_run (w : World) :
  register w =
    if decide (QOperator ∈ registered_classes w) then (Raise ValueError, w)
    else
      let w1 := set_registered_classes (registered_classes w ++ [QOperator]) w in
      if decide (Fn_create_global_app ∈ load_post w) then (Ok tt, w1)
      else (Ok tt, set_load_post (load_post w ++ [Fn_create_global_app]) w1).
Proof.
  unfold register, bind. rewrite register_class_run.
  destruct (decide (QOperator ∈ registered_classes w)); [reflexivity|].
  unfold gets. cbn [load_post set_registered_classes].
  destruct (decide (Fn_create_global_app ∈ load_post w)); reflexivity.
Qed.

Lemma unregister_run (w : World) :
  unregister w =
    if decide (QOperator ∈ registered_classes w) then
      let w1 := set_registered_classes (list_remove QOperator (registered_classes w)) w in
      if decide (Fn_create_global_app ∈ load_post w)
      then (Ok tt, set_load_post (list_remove Fn_create_global_app (load_post w)) w1)
      else (Ok tt, w1)
    else (Raise RuntimeError, w).
Proof.
  unfold unregister, bind. rewrite unregister_class_run.
  destruct (decide (QOperator ∈ registered_classes w)); [| reflexivity].
  unfold gets. cbn [load_post set_registered_classes].
  destruct (decide (Fn_create_global_app ∈ load_post w)) as [Hin|Hout]; [| reflexivity].
  unfold py_remove. now rewrite decide_True by exact Hin.
Qed.

(** C4, as amended.  Only the handler list is guarded by membership
    checks; the class registration and unregistration are not.
    [register] with the command class registered raises [ValueError] and
    changes nothing; with the class not registered it registers the class
    and appends the handler only when the handler is not in the list.  So
    from a state with neither registered, [register] leaves one class and
    one handler entry, and a second [register] in succession raises and
    leaves that state as it is.  [unregister] with the class not
    registered raises [RuntimeError] and changes nothing, whether the
    handler is in the list or not, and the main block of the module
    catches that error; with the class registered it removes the class,
    and removes the handler only when the handler is in the list. *)
Theorem registration_guards :
  forall w : World,
    (QOperator ∈ registered_classes w ->
     register w = (Raise ValueError, w)) /\
    (QOperator ∉ registered_classes w ->
     Fn_create_global_app ∈ load_post w ->
     register w =
       (Ok tt, set_registered_classes (registered_classes w ++ [QOperator]) w) /\
     handler_count Fn_create_global_app (snd (register w)) =
       handler_count Fn_create_global_app w) /\
    (QOperator ∉ registered_classes w ->
     Fn_create_global_app ∉ load_post w ->
     register w =
       (Ok tt, set_load_post (load_post w ++ [Fn_create_global_app])
                 (set_registered_classes (registered_classes w ++ [QOperator]) w)) /\
     class_count QOperator (snd (register w)) = 1%nat /\
     handler_count Fn_create_global_app (snd (register w)) = 1%nat /\
     register (snd (register w)) = (Raise ValueError, snd (register w))) /\
    (QOperator ∉ registered_classes w ->
     unregister w = (Raise RuntimeError, w) /\
     try_except unregister main_block_catches (fun _ => ret tt) w = (Ok tt, w)) /\
    (QOperator ∈ registered_classes w ->
     Fn_create_global_app ∉ load_post w ->
     unregister w =
       (Ok tt, set_registered_classes (list_remove QOperator (registered_classes w)) w)) /\
    (QOperator ∈ registered_classes w ->
     Fn_create_global_app ∈ load_post w ->
     unregister w =
       (Ok tt, set_load_post (list_remove Fn_create_global_app (load_post w))
                 (set_registered_classes (list_remove QOperator (registered_classes w)) w))).
Proof.
  intros w. split; [| split; [| split; [| split; [| split]]]].
  - intros Hc. rewrite register_run. now rewrite decide_True by exact Hc.
  - intros Hc Hh. rewrite register_run.
    rewrite decide_False by exact Hc. cbv zeta. rewrite decide_True by exact Hh.
    split; reflexivity.
  - intros Hc Hh. rewrite register_run.
    rewrite !decide_False by assumption. cbv zeta. cbn [fst snd].
    split; [reflexivity|]. split; [| split].
    + unfold class_count. cbn [registered_classes set_load_post set_registered_classes].
      rewrite count_occ_append_one, count_occ_absent by assumption. reflexivity.
    + unfold handler_count. cbn [load_post set_load_post].
      rewrite count_occ_append_one, count_occ_absent by assumption. reflexivity.
    + rewrite register_run.
      cbn [registered_classes set_load_post set_registered_classes].
      rewrite decide_True; [reflexivity|].
      apply elem_of_app. right. apply list_elem_of_singleton. reflexivity.
  - intros Hc.
    assert (Hun : unregister w = (Raise RuntimeError, w))
      by (rewrite unregister_run; now rewrite decide_False by exact Hc).
    split; [exact Hun|]. unfold try_except. rewrite Hun. reflexivity.
  - intros Hc Hh. rewrite unregister_run.
    rewrite decide_True by exact Hc. cbv zeta. now rewrite decide_False by exact Hh.
  - intros Hc Hh. rewrite unregister_run.
    rewrite decide_True by exact Hc. cbv zeta. now rewrite decide_True by exact Hh.
Qed.

Lemma registration_guards_witness :
  register (registered_world windows_host) =
    (Raise ValueError, registered_world windows_host) /\
  register (set_load_post [Fn_create_global_app] (fresh_world windows_host)) =
    (Ok tt, set_registered_classes [QOperator]
              (set_load_post [Fn_create_global_app] (fresh_world windows_host))) /\
  class_count QOperator (snd (register (fresh_world windows_host))) = 1%nat /\
  handler_count Fn_create_global_app (snd (register (fresh_world windows_host))) = 1%nat /\
  register (snd (register (fresh_world windows_host))) =
    (Raise ValueError, snd (register (fresh_world windows_host))) /\
  unregister (set_load_post [Fn_create_global_app] (fresh_world windows_host)) =
    (Raise RuntimeError, set_load_post [Fn_create_global_app] (fresh_world windows_host)) /\
  try_except unregister main_block_catches (fun _ => ret tt) (fresh_world windows_host) =
    (Ok tt, fresh_world windows_host) /\
  unregister (set_registered_classes [QOperator] (fresh_world windows_host)) =
    (Ok tt, set_registered_classes []
              (set_registered_classes [QOperator] (fresh_world windows_host))) /\
  unregister (registered_world windows_host) =
    (Ok tt, set_load_post [] (set_registered_classes [] (registered_world windows_host))).
Proof.
  assert (Hin : forall {A} (x : A), x ∈ [x]) by (intros; apply list_elem_of_singleton; reflexivity).
  assert (Hout : forall {A} (x : A), x ∉ []) by (intros; apply not_elem_of_nil).
  destruct (registration_guards (registered_world windows_host))
    as (Hboth1 & _ & _ & _ & _ & Hboth2).
  destruct (registration_guards (set_load_post [Fn_create_global_app] (fresh_world windows_host)))
    as (_ & Hhandler1 & _ & Hhandler2 & _ & _).
  destruct (registration_guards (fresh_world windows_host))
    as (_ & _ & Hnone1 & Hnone2 & _ & _).
  destruct (registration_guards (set_registered_classes [QOperator] (fresh_world windows_host)))
    as (_ & _ & _ & _ & Hclass & _).
  split; [exact (Hboth1 (Hin _ _))|].
  split; [exact (proj1 (Hhandler1 (Hout _ _) (Hin _ _)))|].
  split; [exact (proj1 (proj2 (Hnone1 (Hout _ _) (Hout _ _))))|].
  split; [exact (proj1 (proj2 (proj2 (Hnone1 (Hout _ _) (Hout _ _)))))|].
  split; [exact (proj2 (proj2 (proj2 (Hnone1 (Hout _ _) (Hout _ _)))))|].
  split; [exact (proj1 (Hhandler2 (Hout _ _)))|].
  split; [exact (proj2 (Hnone2 (Hout _ _)))|].
  split; [exact (Hclass (Hin _ _) (Hout _ _))|].
  exact (Hboth2 (Hin _ _) (Hin _ _)).
Defined.

(** C4 as stated fails: [unregister] with nothing registered is not a
    silent no-op, it raises [RuntimeError]; and the second of two
    [register] calls raises [ValueError]. *)
Lemma register_idempotent_counterexample :
  (QOperator ∉ registered_classes (fresh_world windows_host)) /\
  (Fn_create_global_app ∉ load_post (fresh_world windows_host)) /\
  (fst (unregister (fresh_world windows_host)) = Raise RuntimeError) /\
  (fst (unregister (fresh_world windows_host)) <> Ok tt) /\
  fst (register (snd (register (fresh_world windows_host)))) = Raise ValueError.
Proof.
  repeat split; try (cbn; apply not_elem_of_nil); try reflexivity.
  discriminate.
Qed.

(** ** Platforms *)

Lemma IS_LINUX_not_MAC (h : Host) : IS_LINUX h = true -> IS_MAC h = false.
Proof.
  unfold IS_LINUX, IS_MAC. intros H. apply String.eqb_eq in H. now rewrite H.
Qed.

Lemma IS_WINDOWS_not_MAC (h : Host) : IS_WINDOWS h = true -> IS_MAC h = false.
Proof.
  unfold IS_WINDOWS, IS_MAC. intros H. apply String.eqb_eq in H. now rewrite H.
Qed.

Lemma IS_WINDOWS_not_LINUX (h : Host) : IS_WINDOWS h = true -> IS_LINUX h = false.
Proof.
  unfold IS_WINDOWS, IS_LINUX. intros H. apply String.eqb_eq in H. now rewrite H.
Qed.

(** ** C7: the unimplemented platform *)

Lemma init_icon_linux (w : World) :
  IS_LINUX (host w) = true -> init_icon w = (Raise NotImplementedError, w).
Proof.
  intros Hl. unfold init_icon, bind, gets.
  now rewrite (IS_LINUX_not_MAC _ Hl), Hl.
Qed.

(** On a Linux host the constructor does not get as far as the icon: the
    handle [self._hwnd] was never assigned. *)
Lemma init_linux_AttributeError (w : World) :
  IS_LINUX (host w) = true ->
  BlenderApplication__init__ w = (Raise AttributeError, w).
Proof.
  intros Hl. unfold BlenderApplication__init__, init_window, bind, gets.
  rewrite (IS_LINUX_not_MAC _ Hl).
  assert (Hw : IS_WINDOWS (host w) = false).
  { destruct (IS_WINDOWS (host w)) eqn:E; [|reflexivity].
    now rewrite (IS_WINDOWS_not_LINUX _ E) in Hl. }
  now rewrite Hw.
Qed.

(** C7.  The Linux icon routine raises [NotImplementedError] whenever it
    is invoked, and nothing in the construction catches it: on a Linux host
    the icon step of [__init__], and with it the rest of [__init__] from
    that step on, ends in that error for every object and world. *)
Theorem icon_linux_not_implemented :
  (forall w : World,
     _get_application_icon_linux w = (Raise NotImplementedError, w)) /\
  (forall w : World,
     IS_LINUX (host w) = true -> init_icon w = (Raise NotImplementedError, w)) /\
  (forall (self : BlenderApplication) (w : World),
     IS_LINUX (host w) = true ->
     init_finish self w = (Raise NotImplementedError, w)).
Proof.
  split; [reflexivity|]. split.
  - exact init_icon_linux.
  - intros self w Hl. unfold init_finish, bind, gets.
    now rewrite (init_icon_linux w Hl).
Qed.

Lemma icon_linux_not_implemented_witness :
  init_icon (fresh_world linux_host) = (Raise NotImplementedError, fresh_world linux_host) /\
  init_finish next_app (fresh_world linux_host) =
    (Raise NotImplementedError, fresh_world linux_host).
Proof.
  split.
  - apply (proj1 (proj2 icon_linux_not_implemented) (fresh_world linux_host)).
    reflexivity.
  - apply (proj2 (proj2 icon_linux_not_implemented) next_app (fresh_world linux_host)).
    reflexivity.
Defined.

(** ** C10: the startup hook *)

Lemma instantiate_application_existing (w : World) (app : QAppObj) :
  qapp w = Some app -> instantiate_application w = (Ok app, w).
Proof.
  intros H. unfold instantiate_application, bind, gets. now rewrite H.
Qed.

Lemma str_truthy_false (v : option string) :
  str_truthy v = false <-> v = None \/ v = Some "".
Proof.
  destruct v as [s|]; cbn.
  - rewrite negb_false_iff, String.eqb_eq. split.
    + intros ->. now right.
    + intros [H|H]; [discriminate | now injection H].
  - split; [now left | reflexivity].
Qed.

(** The operator call, once the class is registered, is [execute]. *)
Lemma global_app_registered (w : World) :
  QOperator ∈ registered_classes w ->
  bpy_ops_qoperator_global_app w = QOperator_execute w.
Proof.
  intros H. unfold bpy_ops_qoperator_global_app, bind, gets.
  now rewrite decide_True.
Qed.

(** C10, as amended.  The startup hook calls the operator, and so
    instantiates the application, only when the path of the module file
    contains [startup] and the disable variable is unset or empty: when the
    path does not contain [startup] the hook does nothing, even with the
    variable absent; when the variable holds a non-empty text the hook does
    nothing; in the remaining case the hook is the operator call, which
    with the class registered leaves the world that
    [instantiate_application] leaves. *)
Theorem create_global_app_gate :
  forall w : World,
    let path := module_file (host w) in
    let disable := getenv (environ (host w)) "BQT_DISABLE_STARTUP" in
    (contains "startup" path = false -> create_global_app w = (Ok tt, w)) /\
    (forall text, disable = Some text -> text <> "" -> create_global_app w = (Ok tt, w)) /\
    (contains "startup" path = true -> disable = None \/ disable = Some "" ->
       create_global_app w = bind bpy_ops_qoperator_global_app (fun _ => ret tt) w /\
       (QOperator ∈ registered_classes w ->
          snd (create_global_app w) = snd (instantiate_application w))).
Proof.
  intros w path disable. split; [| split].
  - intros Hp. unfold create_global_app. unfold bind at 1. unfold gets.
    fold path. now rewrite Hp.
  - intros text Hd Hne. unfold create_global_app. unfold bind at 1. unfold gets.
    fold disable. rewrite Hd. cbn [str_truthy].
    apply String.eqb_neq in Hne. rewrite Hne, andb_false_r. reflexivity.
  - intros Hp Hd. apply str_truthy_false in Hd.
    assert (Hrun : create_global_app w =
                   bind bpy_ops_qoperator_global_app (fun _ => ret tt) w).
    { unfold create_global_app. unfold bind at 1. unfold gets.
      fold path disable. now rewrite Hp, Hd. }
    split; [exact Hrun|].
    intros Hreg. rewrite Hrun. unfold bind.
    rewrite (global_app_registered w Hreg). unfold QOperator_execute, bind.
    destruct (instantiate_application w) as [[a|e] w']; reflexivity.
Qed.

Lemma create_global_app_gate_witness :
  create_global_app (registered_world windows_host) =
    bind bpy_ops_qoperator_global_app (fun _ => ret tt) (registered_world windows_host) /\
  create_global_app (registered_world (host_with_disable_startup "1")) =
    (Ok tt, registered_world (host_with_disable_startup "1")).
Proof.
  split.
  - apply (create_global_app_gate (registered_world windows_host));
      [reflexivity | left; reflexivity].
  - apply (proj1 (proj2 (create_global_app_gate
                           (registered_world (host_with_disable_startup "1")))) "1");
      [reflexivity | discriminate].
Defined.

(** C10 as stated fails: with [BQT_DISABLE_STARTUP] set to the empty text
    the variable is set, and the hook still instantiates the application. *)
Lemma create_global_app_counterexample :
  getenv (environ (host_with_disable_startup "")) "BQT_DISABLE_STARTUP" = Some "" /\
  qapp (registered_world (host_with_disable_startup "")) = None /\
  fst (create_global_app (registered_world (host_with_disable_startup ""))) = Ok tt /\
  qapp (snd (create_global_app (registered_world (host_with_disable_startup "")))) =
    Some (Wrapper (mkBlenderApplication false 65552 0
                     (mkQWidget 1 (mkQRect 0 0 640 480) false false true) true)).
Proof. repeat split; vm_compute; reflexivity. Qed.

(** ** Frame lemmas *)

#[global] Instance kept_preorder {S B} (f : S -> B) : PreOrder (kept f).
Proof.
  split.
  - intros s. reflexivity.
  - intros s1 s2 s3 H12 H23. unfold kept in *. congruence.
Qed.

#[global] Instance instance_kept_preorder : PreOrder instance_kept.
Proof.
  split.
  - intros w app H. exact H.
  - intros w1 w2 w3 H12 H23 app H. apply H23, H12, H.
Qed.

Section Preserves.
Context {S : Type} (R : S -> S -> Prop) `{!PreOrder R}.

Lemma preserves_ret {A} (a : A) : preserves R (ret a).
Proof. intros s. reflexivity. Qed.

Lemma preserves_raise {A} (e : Exn) : preserves R (@raise S A e).
Proof. intros s. reflexivity. Qed.

Lemma preserves_gets {A} (f : S -> A) : preserves R (gets f).
Proof. intros s. reflexivity. Qed.

Lemma preserves_modify (f : S -> S) :
  (forall s, R s (f s)) -> preserves R (modify f).
Proof. intros H s. apply H. Qed.

Lemma preserves_bind {A B} (m : M S A) (k : A -> M S B) :
  preserves R m -> (forall a, preserves R (k a)) -> preserves R (bind m k).
Proof.
  intros Hm Hk s. unfold bind. specialize (Hm s).
  destruct (m s) as [[a|e] s']; cbn [snd] in *.
  - transitivity s'; [exact Hm | apply Hk].
  - exact Hm.
Qed.

Lemma preserves_for_each {A} (body : A -> M S unit) (l : list A) :
  (forall x, preserves R (body x)) -> preserves R (for_each body l).
Proof.
  intros Hb. induction l as [|x t IH]; cbn [for_each].
  - apply preserves_ret.
  - apply preserves_bind; [apply Hb | intros _; exact IH].
Qed.

Lemma preserves_try_except {A} (m : M S A) (caught : Exn -> bool)
      (handler : Exn -> M S A) :
  preserves R m -> (forall e, preserves R (handler e)) ->
  preserves R (try_except m caught handler).
Proof.
  intros Hm Hh s. unfold try_except. specialize (Hm s).
  destruct (m s) as [[a|e] s']; cbn [snd] in *; [exact Hm|].
  destruct (caught e); [| exact Hm].
  transitivity s'; [exact Hm | apply Hh].
Qed.
Lemma preserves_on_failure {A} (m : M S A) (cleanup : S -> S) :
  preserves R m -> (forall s, R s (cleanup s)) -> preserves R (on_failure m cleanup).
Proof.
  intros Hm Hc s. unfold on_failure. specialize (Hm s).
  destruct (m s) as [[a|e] s']; cbn [snd] in *; [exact Hm|].
  transitivity s'; [exact Hm | apply Hc].
Qed.
End Preserves.

(** A method that preserves a relation on the world part preserves it
    when called on an object. *)
Lemma preserves_call_method {A} (R : World -> World -> Prop)
      (self : BlenderApplication) (m : Method A) :
  preserves (fun s s' : Self => R (snd s) (snd s')) m ->
  preserves R (call_method self m).
Proof.
  intros Hm w. unfold call_method. specialize (Hm (self, w)).
  destruct (m (self, w)) as [[a|e] [self' w']]; exact Hm.
Qed.

#[global] Instance on_world_preorder (R : World -> World -> Prop) `{!PreOrder R} :
  PreOrder (fun s s' : Self => R (snd s) (snd s')).
Proof.
  split.
  - intros s. reflexivity.
  - intros s1 s2 s3 H12 H23. now transitivity (snd s2).
Qed.

(** Walks through a computation built from [bind], [ret], [raise],
    [gets], [modify], conditionals and loops, leaving the state updates to
    [close]. *)
Ltac frame_steps close :=
  repeat
    (intros;
     lazymatch goal with
     | |- preserves _ (ret _) => apply preserves_ret; try exact _
     | |- preserves _ (raise _) => apply preserves_raise; try exact _
     | |- preserves _ (gets _) => apply preserves_gets; try exact _
     | |- preserves _ (bind _ _) => apply preserves_bind; try exact _
     | |- preserves _ (for_each _ _) => apply preserves_for_each; try exact _
     | |- preserves _ (try_except _ _ _) => apply preserves_try_except; try exact _
     | |- preserves _ (on_failure _ _) =>
         apply preserves_on_failure; [try exact _ | | close]
     | |- preserves _ (call_method _ _) => apply preserves_call_method
     | |- preserves _ (modify _) => apply preserves_modify; close
     | |- preserves _ (if ?c then _ else _) => destruct c
     | |- preserves _ (match ?x with _ => _ end) => destruct x
     end).

Create HintDb bqt_code discriminated.

#[global] Hint Unfold
  py_lower py_as_QRect get_self get_world update_self update_world update_widget
  settings_read settings_write _store_window_geometry _set_window_geometry
  _on_focus_object_changed _get_application_icon_linux _get_application_icon_macintosh
  icon_of_process _get_application_icon_windows new_object init_window init_icon
  init_finish BlenderApplication__init__ timers_register quit_blender read_should_close
  on_update register_class unregister_class register unregister onexit
  py_remove super_notify notify : bqt_code.

Ltac frame close := repeat autounfold with bqt_code; frame_steps close.

Create HintDb bqt_top discriminated.

#[global] Hint Unfold
  BlenderApplication_new instantiate_application QOperator_execute
  bpy_ops_qoperator_global_app create_global_app : bqt_top.

Ltac frame_all close :=
  repeat (autounfold with bqt_top; autounfold with bqt_code); frame_steps close.

Ltac close_kept := intros; unfold kept; reflexivity.

(** A method call on the instance leaves a part of the world alone when
    the method does. *)
Lemma on_instance_kept {A B} (f : World -> B) (m : Method A) :
  preserves (kept (fun s : Self => f (snd s))) m ->
  (forall v w, f (set_qapp v w) = f w) ->
  forall w, f (on_instance m w) = f w.
Proof.
  intros Hm Hf w. unfold on_instance.
  destruct (qapp w) as [[|self|]|]; try reflexivity.
  specialize (Hm (self, w)). unfold kept in Hm.
  destruct (m (self, w)) as [r [self' w']]. cbn [snd] in Hm.
  now rewrite Hf.
Qed.

(** *** The module constant [TICK] changes at import only *)

Lemma run_op_keeps_TICK
      (QApplication_notify : nat -> QEvent -> QWidget -> bool * QEvent * QWidget)
      (op : Op) (w : World) :
  TICK (run_op QApplication_notify op w) = TICK w.
Proof.
  destruct op; cbn [run_op];
    try (apply on_instance_kept; [frame close_kept | reflexivity]);
    match goal with
    | |- TICK (snd (?m w)) = TICK w =>
        enough (H : preserves (kept TICK) m) by apply H
    end;
    frame_all close_kept.
Qed.

Lemma run_ops_keep_TICK
      (QApplication_notify : nat -> QEvent -> QWidget -> bool * QEvent * QWidget)
      (ops : list Op) (w : World) :
  TICK (run_ops QApplication_notify ops w) = TICK w.
Proof.
  revert w. induction ops as [|op ops IH]; intros w; cbn.
  - reflexivity.
  - unfold run_ops in IH. rewrite IH. apply run_op_keeps_TICK.
Qed.

(** *** The application instance stays *)

Lemma instantiate_keeps_instance : preserves instance_kept instantiate_application.
Proof.
  intros w app Happ. now rewrite (instantiate_application_existing w app Happ).
Qed.

Ltac close_instance := intros ? ? Happ; exact Happ.

Lemma world_op_keeps_instance (m : M World unit) :
  m = create_global_app \/ m = register \/ m = unregister \/ m = onexit ->
  preserves instance_kept m.
Proof.
  pose proof instantiate_keeps_instance as Hinst.
  intros [-> | [-> | [-> | ->]]].
  - unfold create_global_app, bpy_ops_qoperator_global_app, QOperator_execute.
    frame_steps close_instance; exact Hinst.
  - frame close_instance.
  - frame close_instance.
  - unfold onexit. apply preserves_bind; [exact _ | apply preserves_gets; exact _ |].
    intros [app|]; [| apply preserves_ret; exact _].
    intros w app' Happ. exact Happ.
Qed.

Lemma on_update_keeps_instance : preserves instance_kept on_update.
Proof. frame close_instance. Qed.

Lemma execute_keeps_instance : preserves instance_kept QOperator_execute.
Proof.
  pose proof instantiate_keeps_instance as Hinst.
  unfold QOperator_execute. frame_steps close_instance. exact Hinst.
Qed.

(** *** [should_close] is assigned by [notify] only *)

Ltac close_self := intros; unfold kept; reflexivity.

Lemma method_keeps_should_close (m : Method unit) :
  m = _set_window_geometry \/ m = _store_window_geometry \/
  (exists o, m = _on_focus_object_changed o) ->
  preserves (kept (fun s : Self => should_close (fst s))) m.
Proof.
  intros [-> | [-> | [o ->]]]; frame close_self.
Qed.

Lemma super_notify_keeps_should_close
      (QApplication_notify : nat -> QEvent -> QWidget -> bool * QEvent * QWidget)
      (receiver : nat) (event : QEvent) :
  preserves (kept (fun s : Self => should_close (fst s)))
            (super_notify QApplication_notify receiver event).
Proof. frame close_self. Qed.

(** A method call on the instance leaves the instance a wrapper. *)
Lemma on_instance_wrapper {A} (m : Method A) (w : World) (self : BlenderApplication) :
  qapp w = Some (Wrapper self) ->
  qapp (on_instance m w) = Some (Wrapper (fst (snd (m (self, w))))).
Proof.
  intros Happ. unfold on_instance. rewrite Happ.
  destruct (m (self, w)) as [r [self' w']]. reflexivity.
Qed.

Lemma notify_should_close
      (QApplication_notify : nat -> QEvent -> QWidget -> bool * QEvent * QWidget)
      (receiver : nat) (event : QEvent) (self : BlenderApplication) (w : World) :
  should_close (fst (snd (notify QApplication_notify receiver event (self, w)))) =
    if is_QCloseEvent event && is_wrapped self receiver then true
    else should_close self.
Proof.
  destruct (is_QCloseEvent event && is_wrapped self receiver) eqn:Hc.
  - apply andb_prop in Hc as [Hce Hw].
    destruct (notify_close_interception_steps QApplication_notify receiver event self w)
      as [Hyes _].
    now rewrite (Hyes Hce Hw).
  - destruct (notify_close_interception_steps QApplication_notify receiver event self w)
      as [_ Hno].
    rewrite (Hno Hc).
    apply (super_notify_keeps_should_close QApplication_notify receiver event (self, w)).
Qed.

(** One operation on a world whose instance is the wrapper: the instance
    is still a wrapper, and [should_close] is as before unless the
    operation is an intercepted close event, which sets it. *)
Lemma run_op_should_close
      (QApplication_notify : nat -> QEvent -> QWidget -> bool * QEvent * QWidget)
      (op : Op) (w : World) (self : BlenderApplication) :
  qapp w = Some (Wrapper self) ->
  exists self',
    qapp (run_op QApplication_notify op w) = Some (Wrapper self') /\
    (should_close self' = should_close self \/
     (should_close self' = true /\ intercepted self op = true)).
Proof.
  intros Happ.
  destruct op; cbn [run_op];
    try (eexists; split; [apply on_instance_wrapper; exact Happ |]);
    try (exists self; split; [| left; reflexivity]).
  - rewrite notify_should_close. cbn [intercepted].
    destruct (is_QCloseEvent event && is_wrapped self receiver); auto.
  - left. apply (method_keeps_should_close (_on_focus_object_changed focus_object)).
    right. right. now exists focus_object.
  - left. apply (method_keeps_should_close _set_window_geometry). now left.
  - left. apply (method_keeps_should_close _store_window_geometry). right. now left.
  - now apply instantiate_keeps_instance.
  - now apply execute_keeps_instance.
  - now apply on_update_keeps_instance.
  - apply (world_op_keeps_instance create_global_app); auto.
  - apply (world_op_keeps_instance register); auto.
  - apply (world_op_keeps_instance unregister); auto.
  - apply (world_op_keeps_instance onexit); auto.
Qed.

Lemma run_ops_keep_wrapper
      (QApplication_notify : nat -> QEvent -> QWidget -> bool * QEvent * QWidget)
      (ops : list Op) (w : World) (self : BlenderApplication) :
  qapp w = Some (Wrapper self) ->
  exists self',
    qapp (run_ops QApplication_notify ops w) = Some (Wrapper self') /\
    (should_close self = true -> should_close self' = true).
Proof.
  revert w self. induction ops as [|op ops IH]; intros w self Happ.
  - exists self. split; [exact Happ | auto].
  - destruct (run_op_should_close QApplication_notify op w self Happ)
      as (self1 & Happ1 & Hsc).
    destruct (IH _ _ Happ1) as (self' & Happ' & Hmono).
    exists self'. split; [exact Happ'|].
    intros Htrue. apply Hmono. destruct Hsc as [Heq | [Ht _]]; congruence.
Qed.

Lemma on_update_run (w : World) (self : BlenderApplication) :
  qapp w = Some (Wrapper self) ->
  on_update w =
    (Ok (TICK w),
     if should_close self then set_quit_requests (S (quit_requests w)) w else w).
Proof.
  intros Happ. unfold on_update, bind, gets. rewrite Happ. cbn [read_should_close ret].
  destruct (should_close self); reflexivity.
Qed.

Lemma import_module_run (w : World) (period : float) :
  TICK_at_import (environ (host w)) = Ok period ->
  import_module w =
    (Ok tt, set_atexit_hooks (atexit_hooks w ++ [Fn_onexit]) (set_TICK period w)).
Proof.
  intros Ht. unfold import_module. unfold bind at 1. unfold gets at 1.
  unfold bind at 1. rewrite Ht. reflexivity.
Qed.

Lemma import_module_raises (w : World) (e : Exn) :
  TICK_at_import (environ (host w)) = Raise e ->
  import_module w = (Raise e, w).
Proof.
  intros Ht. unfold import_module. unfold bind at 1. unfold gets at 1.
  unfold bind at 1. now rewrite Ht.
Qed.

(** ** C3: the tick period, continued *)

(** C3, as amended.  The period is [1.0 / float(text)] for every text of
    the tick-rate variable that [float] reads as a number other than zero,
    and the default period 1/30 when the variable is unset; importing the
    module stores that period in [TICK]; and in a world with the wrapper
    as instance, after any operations, the tick callback returns that same
    [TICK].  For every text that [float] does not read, importing the
    module raises [ValueError] and stops there: there is no fall-back to
    the default. *)
Theorem tick_period :
  (forall (env : gmap string string) (text : string) (rate : float),
     getenv env "BQT_TICK_RATE" = Some text ->
     py_float text = Some rate ->
     (forall sign, rate <> S754_zero sign) ->
     TICK_at_import env = Ok (SFdiv prec64 emax64 float_one rate)) /\
  (forall env : gmap string string,
     getenv env "BQT_TICK_RATE" = None ->
     TICK_at_import env = Ok default_period) /\
  (forall (w : World) (period : float),
     TICK_at_import (environ (host w)) = Ok period ->
     fst (import_module w) = Ok tt /\ TICK (snd (import_module w)) = period) /\
  (forall (QApplication_notify : nat -> QEvent -> QWidget -> bool * QEvent * QWidget)
          (ops : list Op) (w : World) (self : BlenderApplication),
     qapp w = Some (Wrapper self) ->
     fst (on_update (run_ops QApplication_notify ops w)) = Ok (TICK w)) /\
  (forall (w : World) (text : string),
     getenv (environ (host w)) "BQT_TICK_RATE" = Some text ->
     py_float text = None ->
     TICK_at_import (environ (host w)) = Raise ValueError /\
     import_module w = (Raise ValueError, w)).
Proof.
  split; [| split; [| split; [| split]]].
  - intros env text rate Henv Hrate Hnz.
    rewrite (TICK_at_import_set env text rate Henv Hrate).
    unfold py_truediv. destruct rate; try reflexivity. now destruct (Hnz s).
  - exact TICK_at_import_unset.
  - intros w period Ht. now rewrite (import_module_run w period Ht).
  - intros QApplication_notify ops w self Happ.
    destruct (run_ops_keep_wrapper QApplication_notify ops w self Happ)
      as (self' & Happ' & _).
    rewrite (on_update_run _ self' Happ'). cbn [fst].
    now rewrite run_ops_keep_TICK.
  - intros w text Henv Hf.
    pose proof (TICK_at_import_not_numeric _ _ Henv Hf) as Ht.
    split; [exact Ht | now apply import_module_raises].
Qed.

Lemma tick_period_witness :
  TICK_at_import (environ (host_with_tick_rate "60")) =
    Ok (S754_finite false 4803839602528529 (-58)) /\
  TICK_at_import (environ windows_host) = Ok default_period /\
  TICK (snd (import_module (fresh_world windows_host))) = default_period /\
  fst (on_update
         (run_ops closing_notify
            [Op_on_update; Op_notify 1 (mkQEvent QCloseEvent true); Op_on_update]
            sample_world)) = Ok (TICK sample_world) /\
  import_module (fresh_world (host_with_tick_rate "thirty")) =
    (Raise ValueError, fresh_world (host_with_tick_rate "thirty")).
Proof.
  destruct tick_period as (Hset & Hunset & Himport & Hsame & Hbad).
  split; [| split; [| split; [| split]]].
  - apply (Hset (environ (host_with_tick_rate "60")) "60"
                (S754_finite false 8444249301319680 (-47)));
      [reflexivity | vm_compute; reflexivity | discriminate].
  - apply (Hunset (environ windows_host)). reflexivity.
  - apply (Himport (fresh_world windows_host) default_period).
    vm_compute; reflexivity.
  - apply (Hsame closing_notify _ sample_world sample_app). reflexivity.
  - apply (Hbad (fresh_world (host_with_tick_rate "thirty")) "thirty");
      [reflexivity | vm_compute; reflexivity].
Defined.

(** ** C9: [should_close] only ever goes from false to true *)

Lemma set_window_geometry_should_close (self : BlenderApplication) (w : World) :
  should_close (fst (snd (_set_window_geometry (self, w)))) = should_close self.
Proof.
  apply (method_keeps_should_close _set_window_geometry). now left.
Qed.

Lemma init_finish_should_close (self self' : BlenderApplication) (w w' : World) :
  init_finish self w = (Ok self', w') -> should_close self' = should_close self.
Proof.
  unfold init_finish. unfold bind at 1. unfold gets at 1.
  unfold bind at 1. destruct (init_icon w) as [[icon|e] w1]; [| discriminate].
  unfold bind at 1.
  destruct ((if icon_truthy icon then modify (set_window_icon icon) else ret tt) w1)
    as [[[]|e] w2]; [| discriminate].
  unfold bind at 1.
  destruct (negb (IS_MAC (host w))).
  - unfold bind at 1. unfold call_method.
    pose proof (set_window_geometry_should_close self w2) as Hsc.
    destruct (_set_window_geometry (self, w2)) as [[[]|e] [self2 w3]];
      [| discriminate].
    cbn [fst snd] in Hsc. cbn. intros H. injection H as <- _. exact Hsc.
  - cbn. intros H. injection H as <- _. reflexivity.
Qed.

Lemma init_should_close (self : BlenderApplication) (w w' : World) :
  BlenderApplication__init__ w = (Ok self, w') -> should_close self = false.
Proof.
  unfold BlenderApplication__init__. unfold bind at 1.
  destruct (init_window w) as [[self0|e] w0] eqn:Hw; [| discriminate].
  intros Hf. rewrite (init_finish_should_close _ _ _ _ Hf).
  revert Hw. unfold init_window, bind, gets, new_object, modify, ret, raise.
  destruct (IS_WINDOWS (host w)); [| destruct (IS_MAC (host w))];
    intros H; try discriminate H; now injection H as <- _.
Qed.

(** C9.  [should_close] is false in every object the constructor returns;
    an operation on a world whose instance is the wrapper leaves the flag
    as it was unless it is an intercepted close event, which sets it to
    true; hence once true it is true after any sequence of operations. *)
Theorem should_close_monotone :
  forall QApplication_notify : nat -> QEvent -> QWidget -> bool * QEvent * QWidget,
    (forall (w w' : World) (self : BlenderApplication),
       BlenderApplication__init__ w = (Ok self, w') -> should_close self = false) /\
    (forall (op : Op) (w : World) (self : BlenderApplication),
       qapp w = Some (Wrapper self) ->
       exists self',
         qapp (run_op QApplication_notify op w) = Some (Wrapper self') /\
         (should_close self' = should_close self \/
          (should_close self' = true /\ intercepted self op = true))) /\
    (forall (ops : list Op) (w : World) (self : BlenderApplication),
       qapp w = Some (Wrapper self) ->
       should_close self = true ->
       exists self',
         qapp (run_ops QApplication_notify ops w) = Some (Wrapper self') /\
         should_close self' = true).
Proof.
  intros QApplication_notify. split; [| split].
  - intros w w' self. apply init_should_close.
  - intros op w self. apply run_op_should_close.
  - intros ops w self Happ Htrue.
    destruct (run_ops_keep_wrapper QApplication_notify ops w self Happ)
      as (self' & Happ' & Hmono).
    exists self'. split; [exact Happ' | now apply Hmono].
Qed.

Lemma should_close_monotone_witness :
  should_close
    (mkBlenderApplication false 65552 0
       (mkQWidget 1 (mkQRect 0 0 640 480) false false true) true) = false /\
  (exists self',
     qapp (run_ops closing_notify
             [Op_on_update; Op_store_window_geometry; Op_onexit; Op_execute]
             (set_qapp (Some (Wrapper (set_should_close true sample_app))) sample_world))
       = Some (Wrapper self') /\
     should_close self' = true).
Proof.
  destruct (should_close_monotone closing_notify) as (Hinit & _ & Hmono).
  split.
  - apply (Hinit (fresh_world windows_host)
                 (snd (BlenderApplication__init__ (fresh_world windows_host)))).
    vm_compute. reflexivity.
  - apply (Hmono _ _ (set_should_close true sample_app)); reflexivity.
Defined.

(** ** C8: the application is made once *)

Lemma init_keeps_timers : preserves (kept timers) BlenderApplication__init__.
Proof. frame close_kept. Qed.

(** The constructor call, by the outcome of the two halves of
    [__init__]. *)
Lemma new_run (w : World) :
  BlenderApplication_new w =
    match init_window w with
    | (Ok self0, w1) =>
        match init_finish self0 w1 with
        | (Ok self, w2) => (Ok self, set_qapp (Some (Wrapper self)) w2)
        | (Raise e, w2) => (Raise e, set_qapp (Some (Wrapper self0)) w2)
        end
    | (Raise e, w1) => (Raise e, set_qapp (Some Unfinished) w1)
    end.
Proof.
  unfold BlenderApplication_new. unfold bind at 1. unfold on_failure at 1.
  destruct (init_window w) as [[self0|e] w1]; [| reflexivity].
  unfold bind at 1. unfold on_failure.
  destruct (init_finish self0 w1) as [[self|e] w2]; reflexivity.
Qed.

Lemma new_outcome (w : World) :
  fst (BlenderApplication_new w) = fst (BlenderApplication__init__ w) /\
  exists app, qapp (snd (BlenderApplication_new w)) = Some app.
Proof.
  rewrite new_run. unfold BlenderApplication__init__, bind.
  destruct (init_window w) as [[self0|e] w1]; [| split; [reflexivity | now eexists]].
  destruct (init_finish self0 w1) as [[self|e] w2]; (split; [reflexivity | now eexists]).
Qed.

Lemma new_returns (w w' : World) (self : BlenderApplication) :
  BlenderApplication__init__ w = (Ok self, w') ->
  BlenderApplication_new w = (Ok self, set_qapp (Some (Wrapper self)) w').
Proof.
  rewrite new_run. unfold BlenderApplication__init__, bind.
  destruct (init_window w) as [[self0|e] w1]; [| discriminate].
  destruct (init_finish self0 w1) as [[self1|e] w2]; [| discriminate].
  intros H. now injection H as -> ->.
Qed.

Lemma new_keeps_timers : preserves (kept timers) BlenderApplication_new.
Proof. unfold BlenderApplication_new. frame close_kept. Qed.

Lemma instantiate_application_first (w w' : World) (self : BlenderApplication) :
  qapp w = None ->
  BlenderApplication__init__ w = (Ok self, w') ->
  instantiate_application w =
    (Ok (Wrapper self),
     set_timers (timers w ++ [Fn_on_update]) (set_qapp (Some (Wrapper self)) w')).
Proof.
  intros Hnone Hinit.
  pose proof (init_keeps_timers w) as Ht. unfold kept in Ht. rewrite Hinit in Ht.
  cbn [snd] in Ht.
  unfold instantiate_application. unfold bind at 1. unfold gets at 1. rewrite Hnone.
  unfold bind at 1. rewrite (new_returns w w' self Hinit).
  unfold timers_register, bind, gets, modify, ret.
  cbn [timers set_qapp]. now rewrite Ht.
Qed.

(** The first call when the constructor raises: the error comes out, an
    instance is left and no timer is registered. *)
Lemma instantiate_application_raises (w : World) (e : Exn) :
  qapp w = None ->
  fst (BlenderApplication__init__ w) = Raise e ->
  fst (instantiate_application w) = Raise e /\
  timers (snd (instantiate_application w)) = timers w /\
  exists app, qapp (snd (instantiate_application w)) = Some app.
Proof.
  intros Hnone Hinit.
  destruct (new_outcome w) as [Hout [app Happ]]. rewrite Hinit in Hout.
  pose proof (new_keeps_timers w) as Ht. unfold kept in Ht.
  assert (Heq : instantiate_application w = (Raise e, snd (BlenderApplication_new w))).
  { unfold instantiate_application. unfold bind at 1. unfold gets at 1.
    rewrite Hnone. unfold bind at 1.
    destruct (BlenderApplication_new w) as [[self|err] w1]; cbn [fst snd] in *;
      [discriminate Hout|].
    now injection Hout as ->. }
  rewrite Heq. cbn [fst snd].
  split; [reflexivity|]. split; [exact Ht | now exists app].
Qed.

Lemma execute_run (w : World) :
  QOperator_execute w =
    (match fst (instantiate_application w) with
     | Ok _ => Ok ["PASS_THROUGH"]
     | Raise e => Raise e
     end, snd (instantiate_application w)).
Proof.
  unfold QOperator_execute, bind.
  destruct (instantiate_application w) as [[a|e] w']; reflexivity.
Qed.

Lemma instantiate_times_settled (w : World) (app : QAppObj) (n : nat) :
  qapp (snd (instantiate_application w)) = Some app ->
  instantiate_times (S n) w = snd (instantiate_application w).
Proof.
  intros Happ. induction n as [|n IH]; [reflexivity|].
  change (instantiate_times (S (S n)) w)
    with (snd (instantiate_application (instantiate_times (S n) w))).
  rewrite IH. now rewrite (instantiate_application_existing _ app Happ).
Qed.

(** C8, as amended.  When an application instance exists,
    [instantiate_application] returns it and changes nothing: no wrapper
    is made and no timer is registered, and the operator's [execute] does
    the same and passes through.  When none exists the wrapper is
    constructed.  If the constructor returns, the wrapper becomes the
    instance and the tick callback is registered once, on that first call,
    by [instantiate_application] and by [execute] alike; every later call
    finds the instance.  If the constructor raises, as it does on every
    platform other than Windows and macOS, the error comes out of both,
    the unfinished object stays the instance and the tick callback is not
    registered, on that call or on any later one. *)
Theorem instantiate_application_once :
  (forall (w : World) (app : QAppObj),
     qapp w = Some app ->
     instantiate_application w = (Ok app, w) /\
     QOperator_execute w = (Ok ["PASS_THROUGH"], w)) /\
  (forall (w w' : World) (self : BlenderApplication),
     qapp w = None ->
     BlenderApplication__init__ w = (Ok self, w') ->
     instantiate_application w =
       (Ok (Wrapper self),
        set_timers (timers w ++ [Fn_on_update]) (set_qapp (Some (Wrapper self)) w')) /\
     QOperator_execute w =
       (Ok ["PASS_THROUGH"],
        set_timers (timers w ++ [Fn_on_update]) (set_qapp (Some (Wrapper self)) w')) /\
     forall n : nat,
       instantiate_times (S n) w = snd (instantiate_application w) /\
       qapp (instantiate_times (S n) w) = Some (Wrapper self) /\
       timer_count Fn_on_update (instantiate_times (S n) w) =
         S (timer_count Fn_on_update w)) /\
  (forall (w : World) (e : Exn),
     qapp w = None ->
     fst (BlenderApplication__init__ w) = Raise e ->
     fst (instantiate_application w) = Raise e /\
     fst (QOperator_execute w) = Raise e /\
     snd (QOperator_execute w) = snd (instantiate_application w) /\
     (exists app, qapp (snd (instantiate_application w)) = Some app) /\
     forall n : nat,
       instantiate_times (S n) w = snd (instantiate_application w) /\
       timers (instantiate_times n w) = timers w) /\
  (forall w : World,
     IS_WINDOWS (host w) = false ->
     IS_MAC (host w) = false ->
     fst (BlenderApplication__init__ w) = Raise AttributeError).
Proof.
  split; [| split; [| split]].
  - intros w app Happ. split.
    + now apply instantiate_application_existing.
    + rewrite execute_run. now rewrite (instantiate_application_existing w app Happ).
  - intros w w' self Hnone Hinit.
    pose proof (instantiate_application_first w w' self Hnone Hinit) as Hfirst.
    split; [exact Hfirst|]. split; [rewrite execute_run; now rewrite Hfirst|].
    intros n.
    rewrite (instantiate_times_settled w (Wrapper self) n) by now rewrite Hfirst.
    rewrite Hfirst. cbn [snd].
    split; [reflexivity|]. split; [reflexivity|].
    unfold timer_count. cbn [timers set_timers].
    apply count_occ_append_one.
  - intros w e Hnone Hinit.
    destruct (instantiate_application_raises w e Hnone Hinit) as (Hout & Ht & app & Happ).
    split; [exact Hout|]. rewrite execute_run, Hout. cbn [fst snd].
    split; [reflexivity|]. split; [reflexivity|]. split; [now exists app|].
    intros n. split; [now apply (instantiate_times_settled w app)|].
    destruct n as [|n]; [reflexivity|].
    now rewrite (instantiate_times_settled w app n Happ).
  - intros w Hwin Hmac.
    unfold BlenderApplication__init__, init_window, bind, gets.
    now rewrite Hwin, Hmac.
Qed.

Lemma instantiate_application_once_witness :
  instantiate_application sample_world = (Ok (Wrapper sample_app), sample_world) /\
  qapp (instantiate_times 3 (fresh_world windows_host)) =
    Some (Wrapper (mkBlenderApplication false 65552 0
                     (mkQWidget 1 (mkQRect 0 0 640 480) false false true) true)) /\
  timer_count Fn_on_update (instantiate_times 3 (fresh_world windows_host)) = 1%nat /\
  fst (QOperator_execute (fresh_world freebsd_host)) = Raise AttributeError /\
  timers (instantiate_times 3 (fresh_world freebsd_host)) = [].
Proof.
  destruct instantiate_application_once as (Hexisting & Hfirst & Hraises & Hother).
  split; [| split; [| split; [| split]]].
  - apply (Hexisting sample_world (Wrapper sample_app)). reflexivity.
  - assert (Hinit : BlenderApplication__init__ (fresh_world windows_host) =
                    (Ok (mkBlenderApplication false 65552 0
                           (mkQWidget 1 (mkQRect 0 0 640 480) false false true) true),
                     snd (BlenderApplication__init__ (fresh_world windows_host))))
      by (vm_compute; reflexivity).
    destruct (Hfirst (fresh_world windows_host) _ _ eq_refl Hinit) as (_ & _ & Hn).
    now destruct (Hn 2%nat) as (_ & Happ & _).
  - assert (Hinit : BlenderApplication__init__ (fresh_world windows_host) =
                    (Ok (mkBlenderApplication false 65552 0
                           (mkQWidget 1 (mkQRect 0 0 640 480) false false true) true),
                     snd (BlenderApplication__init__ (fresh_world windows_host))))
      by (vm_compute; reflexivity).
    destruct (Hfirst (fresh_world windows_host) _ _ eq_refl Hinit) as (_ & _ & Hn).
    now destruct (Hn 2%nat) as (_ & _ & Hcount).
  - apply (Hraises (fresh_world freebsd_host) AttributeError eq_refl).
    apply (Hother (fresh_world freebsd_host)); reflexivity.
  - apply (Hraises (fresh_world freebsd_host) AttributeError eq_refl).
    apply (Hother (fresh_world freebsd_host)); reflexivity.
Defined.

(** C8 as stated fails: on a Linux host with no instance the first call
    raises [AttributeError]; the wrapper is not finished and the tick
    timer is not registered, then or on the calls that follow, which find
    the unfinished object as the instance. *)
Lemma instantiate_application_counterexample :
  qapp (fresh_world linux_host) = None /\
  fst (instantiate_application (fresh_world linux_host)) = Raise AttributeError /\
  timer_count Fn_on_update (snd (instantiate_application (fresh_world linux_host))) = 0%nat /\
  qapp (snd (instantiate_application (fresh_world linux_host))) = Some Unfinished /\
  fst (instantiate_application (snd (instantiate_application (fresh_world linux_host)))) =
    Ok Unfinished /\
  timer_count Fn_on_update (instantiate_times 3 (fresh_world linux_host)) = 0%nat /\
  (timer_count Fn_on_update (instantiate_times 3 (fresh_world linux_host)) <> 1%nat).
Proof.
  repeat split; try (vm_compute; reflexivity).
  vm_compute. discriminate.
Qed.

(** ** C6: the Windows icon when no process matches *)

Lemma append_not_empty (a b : string) : b <> "" -> a +:+ b <> "".
Proof.
  intros Hb. destruct a as [|c a]; cbn; [exact Hb | discriminate].
Qed.

Lemma TEMP_ICON_FILEPATH_not_empty (h : Host) : TEMP_ICON_FILEPATH h <> "".
Proof.
  unfold TEMP_ICON_FILEPATH. apply append_not_empty, append_not_empty. discriminate.
Qed.

(** [if icon:] holds for the icon the Windows routine returns. *)
Lemma temp_icon_truthy (h : Host) :
  icon_truthy (Some (mkQIcon (TEMP_ICON_FILEPATH h))) = true.
Proof.
  unfold icon_truthy, QIcon_isNull. cbn [icon_file].
  apply negb_true_iff, String.eqb_neq, TEMP_ICON_FILEPATH_not_empty.
Qed.

Lemma icon_loop_no_match (l : list (Z * option string)) (w : World) :
  forallb (fun p : Z * option string =>
             match snd p with
             | Some exe => negb (contains "blender" (lower exe))
             | None => true
             end) l = true ->
  for_each icon_of_process l w = (Ok tt, w).
Proof.
  induction l as [|p l IH]; cbn [forallb for_each]; intros H.
  - reflexivity.
  - apply andb_prop in H as [Hp Hl]. unfold bind.
    assert (Hone : icon_of_process p w = (Ok tt, w)).
    { unfold icon_of_process. destruct (snd p) as [exe|]; [| reflexivity].
      apply negb_true_iff in Hp. now rewrite Hp. }
    rewrite Hone. now apply IH.
Qed.

Lemma icon_windows_no_match (w : World) :
  no_blender_process (host w) = true ->
  _get_application_icon_windows w = (Ok (mkQIcon (TEMP_ICON_FILEPATH (host w))), w).
Proof.
  intros Hno. unfold _get_application_icon_windows, bind, gets.
  now rewrite (icon_loop_no_match _ w Hno).
Qed.

Lemma set_window_geometry_keeps_world :
  preserves (kept (fun s : Self => snd s)) _set_window_geometry.
Proof. frame close_kept. Qed.

(** C6, as amended.  When no process has [blender] in the name of its
    executable, the Windows routine completes without error and writes
    nothing, and still returns an icon object, made from the path of the
    temporary icon file; that object counts as true in [if icon:], so on a
    Windows host the constructor sets it as the application icon. *)
Theorem icon_windows_no_process :
  forall w : World,
    no_blender_process (host w) = true ->
    _get_application_icon_windows w = (Ok (mkQIcon (TEMP_ICON_FILEPATH (host w))), w) /\
    icon_truthy (Some (mkQIcon (TEMP_ICON_FILEPATH (host w)))) = true /\
    (IS_WINDOWS (host w) = true ->
     forall self : BlenderApplication,
       window_icon (snd (init_finish self w)) =
         Some (mkQIcon (TEMP_ICON_FILEPATH (host w)))).
Proof.
  intros w Hno. split; [now apply icon_windows_no_match|].
  split; [apply temp_icon_truthy|].
  intros Hwin self.
  unfold init_finish. unfold bind at 1. unfold gets at 1.
  unfold bind at 1. unfold init_icon. unfold bind at 1. unfold gets at 1.
  rewrite (IS_WINDOWS_not_MAC _ Hwin), (IS_WINDOWS_not_LINUX _ Hwin), Hwin.
  unfold bind at 1. rewrite (icon_windows_no_match w Hno). unfold ret at 1.
  unfold bind at 1. rewrite temp_icon_truthy. unfold modify at 1.
  cbn [negb]. unfold bind at 1. unfold bind at 1. unfold call_method.
  pose proof (set_window_geometry_keeps_world
                (self, set_window_icon (Some (mkQIcon (TEMP_ICON_FILEPATH (host w)))) w))
    as Hw.
  unfold kept in Hw.
  destruct (_set_window_geometry _) as [[[]|e] [self' w']]; cbn [snd] in Hw;
    rewrite Hw; reflexivity.
Qed.

Lemma icon_windows_no_process_witness :
  _get_application_icon_windows (fresh_world host_without_blender_process) =
    (Ok (mkQIcon "C:\Temp\blender_icon.png"), fresh_world host_without_blender_process) /\
  window_icon (snd (init_finish next_app (fresh_world host_without_blender_process))) =
    Some (mkQIcon "C:\Temp\blender_icon.png").
Proof.
  destruct (icon_windows_no_process (fresh_world host_without_blender_process) eq_refl)
    as (Hicon & _ & Hset).
  split.
  - exact Hicon.
  - apply Hset. reflexivity.
Defined.

(** C6 as stated fails: on a Windows host where no process is Blender's,
    with the icon file of an earlier session still in the temporary
    directory, the routine returns an icon object for that file and the
    constructor sets it as the application icon. *)
Lemma icon_windows_counterexample :
  no_blender_process host_without_blender_process = true /\
  temp_icon stale_icon_world = Some "C:\Program Files\Blender Foundation\blender.exe" /\
  _get_application_icon_windows stale_icon_world =
    (Ok (mkQIcon "C:\Temp\blender_icon.png"), stale_icon_world) /\
  fst (BlenderApplication__init__ stale_icon_world) =
    Ok (mkBlenderApplication false 65552 0
          (mkQWidget 1 (mkQRect 0 0 640 480) false false true) true) /\
  window_icon (snd (BlenderApplication__init__ stale_icon_world)) =
    Some (mkQIcon "C:\Temp\blender_icon.png") /\
  (window_icon (snd (BlenderApplication__init__ stale_icon_world)) <> None).
Proof.
  repeat split; try (vm_compute; reflexivity).
  vm_compute. discriminate.
Qed.

(** * Further properties of the module *)

(** ** The shutdown chain: close event, flag, tick, quit *)

Lemma on_update_no_wrapper (w : World) :
  qapp w = None \/ qapp w = Some PlainQApplication ->
  on_update w = (Raise AttributeError, w).
Proof.
  intros [H | H]; unfold on_update, bind, gets; now rewrite H.
Qed.

(** X1.  The tick callback reads [should_close] off the application
    instance: with no instance, or with an instance that is not the
    wrapper, it raises [AttributeError], issues no quit command and
    changes nothing. *)
Theorem on_update_without_wrapper :
  forall w : World,
    qapp w = None \/ qapp w = Some PlainQApplication ->
    on_update w = (Raise AttributeError, w) /\
    forall n : nat, tick_times n w = w.
Proof.
  intros w H. split; [now apply on_update_no_wrapper|].
  induction n as [|n IH]; [reflexivity|].
  change (tick_times (S n) w) with (snd (on_update (tick_times n w))).
  rewrite IH. now rewrite on_update_no_wrapper.
Qed.

Lemma on_update_without_wrapper_witness :
  on_update (fresh_world windows_host) = (Raise AttributeError, fresh_world windows_host) /\
  tick_times 5 (set_qapp (Some PlainQApplication) (fresh_world windows_host)) =
    set_qapp (Some PlainQApplication) (fresh_world windows_host).
Proof.
  split.
  - apply (on_update_without_wrapper (fresh_world windows_host)). now left.
  - apply (on_update_without_wrapper
             (set_qapp (Some PlainQApplication) (fresh_world windows_host))).
    now right.
Defined.

Lemma tick_times_requests (n : nat) (w : World) (self : BlenderApplication) :
  qapp w = Some (Wrapper self) ->
  qapp (tick_times n w) = Some (Wrapper self) /\
  quit_requests (tick_times n w) =
    (if should_close self then n + quit_requests w else quit_requests w)%nat /\
  (should_close self = false -> tick_times n w = w).
Proof.
  intros Happ. induction n as [|n (IHa & IHq & IHw)].
  - split; [exact Happ|]. split; [| reflexivity].
    cbn. now destruct (should_close self).
  - change (tick_times (S n) w) with (snd (on_update (tick_times n w))).
    rewrite (on_update_run _ self IHa). cbn [snd].
    destruct (should_close self) eqn:Hsc.
    + split; [exact IHa|]. split; [| discriminate].
      cbn [quit_requests set_quit_requests]. rewrite IHq. lia.
    + split; [exact IHa|]. split; [exact IHq|]. intros _. now apply IHw.
Qed.

(** X2.  With the wrapper as instance, every tick issues the quit command
    once while [should_close] is set, so [n] ticks issue it [n] times, and
    no tick issues it or changes anything while the flag is clear. *)
Theorem ticks_issue_quit_while_closing :
  forall (n : nat) (w : World) (self : BlenderApplication),
    qapp w = Some (Wrapper self) ->
    quit_requests (tick_times n w) =
      (if should_close self then n + quit_requests w else quit_requests w)%nat /\
    (should_close self = false -> tick_times n w = w).
Proof.
  intros n w self Happ.
  destruct (tick_times_requests n w self Happ) as (_ & Hq & Hw). now split.
Qed.

Lemma ticks_issue_quit_while_closing_witness :
  quit_requests
    (tick_times 3 (set_qapp (Some (Wrapper (set_should_close true sample_app))) sample_world))
    = 3%nat /\
  tick_times 3 sample_world = sample_world.
Proof.
  split.
  - apply (ticks_issue_quit_while_closing 3
             (set_qapp (Some (Wrapper (set_should_close true sample_app))) sample_world)
             (set_should_close true sample_app)).
    reflexivity.
  - apply (ticks_issue_quit_while_closing 3 sample_world sample_app); reflexivity.
Defined.

Lemma notify_close_world
      (QApplication_notify : nat -> QEvent -> QWidget -> bool * QEvent * QWidget)
      (receiver : nat) (event : QEvent) (w : World) (self : BlenderApplication) :
  qapp w = Some (Wrapper self) ->
  is_QCloseEvent event = true ->
  is_wrapped self receiver = true ->
  run_op QApplication_notify (Op_notify receiver event) w =
    set_qapp (Some (Wrapper (set_should_close true self)))
      (set_settings (stored_settings (blender_widget self) (settings w)) w).
Proof.
  intros Happ Hc Hr. cbn [run_op]. unfold on_instance. rewrite Happ.
  destruct (notify_close_interception_steps QApplication_notify receiver event self w)
    as [Hyes _].
  now rewrite (Hyes Hc Hr).
Qed.

(** X3.  The whole chain: once Qt has delivered a close event for the
    container widget or the wrapped window to the instance, the next tick
    returns the usual period and issues the quit command exactly once,
    whatever the default handling is. *)
Theorem close_event_then_tick_quits :
  forall (QApplication_notify : nat -> QEvent -> QWidget -> bool * QEvent * QWidget)
         (receiver : nat) (event : QEvent) (w : World) (self : BlenderApplication),
    qapp w = Some (Wrapper self) ->
    is_QCloseEvent event = true ->
    is_wrapped self receiver = true ->
    let w1 := run_op QApplication_notify (Op_notify receiver event) w in
    fst (on_update w1) = Ok (TICK w) /\
    quit_requests (snd (on_update w1)) = S (quit_requests w) /\
    quit_requests w1 = quit_requests w.
Proof.
  intros QApplication_notify receiver event w self Happ Hc Hr w1.
  subst w1. rewrite (notify_close_world _ _ _ _ _ Happ Hc Hr).
  rewrite (on_update_run _ (set_should_close true self)) by reflexivity.
  repeat split.
Qed.

Lemma close_event_then_tick_quits_witness :
  quit_requests
    (snd (on_update
            (run_op closing_notify (Op_notify 0 (mkQEvent QCloseEvent true)) sample_world)))
    = 1%nat.
Proof.
  apply (close_event_then_tick_quits closing_notify 0 (mkQEvent QCloseEvent true)
           sample_world sample_app); reflexivity.
Defined.

(** ** The settings store under the store and restore operations *)

Lemma stored_settings_overwrite (wd1 wd2 : QWidget) (store : gmap string QVariant) :
  stored_settings wd2 (stored_settings wd1 store) = stored_settings wd2 store.
Proof.
  unfold stored_settings, QSettings_setValue.
  apply map_eq. intros k. rewrite !lookup_insert.
  repeat case_decide; reflexivity.
Qed.

Lemma stored_settings_other_key (wd : QWidget) (store : gmap string QVariant) (k : string) :
  k <> settings_key SETTINGS_WINDOW_GROUP_NAME SETTINGS_KEY_GEOMETRY ->
  k <> settings_key SETTINGS_WINDOW_GROUP_NAME SETTINGS_KEY_MAXIMIZED ->
  k <> settings_key SETTINGS_WINDOW_GROUP_NAME SETTINGS_KEY_FULL_SCREEN ->
  stored_settings wd store !! k = store !! k.
Proof.
  intros Hg Hm Hf. unfold stored_settings, QSettings_setValue.
  rewrite !lookup_insert_ne by (intros E; symmetry in E; contradiction).
  reflexivity.
Qed.

(** X4.  The store operation writes its three keys and nothing else:
    every other key of the store keeps its value, and of two store
    operations in a row the later one wins, the world being the same as
    after the later one alone. *)
Theorem store_window_geometry_overwrites :
  forall (self1 self2 : BlenderApplication) (w : World),
    let w1 := snd (snd (_store_window_geometry (self1, w))) in
    (forall k : string,
       k <> settings_key SETTINGS_WINDOW_GROUP_NAME SETTINGS_KEY_GEOMETRY ->
       k <> settings_key SETTINGS_WINDOW_GROUP_NAME SETTINGS_KEY_MAXIMIZED ->
       k <> settings_key SETTINGS_WINDOW_GROUP_NAME SETTINGS_KEY_FULL_SCREEN ->
       settings w1 !! k = settings w !! k) /\
    _store_window_geometry (self2, w1) = _store_window_geometry (self2, w).
Proof.
  intros self1 self2 w w1. subst w1. rewrite store_window_geometry_run. cbn [snd].
  split.
  - intros k Hg Hm Hf. cbn [settings set_settings].
    now apply stored_settings_other_key.
  - rewrite !store_window_geometry_run. cbn [settings set_settings].
    rewrite stored_settings_overwrite. reflexivity.
Qed.

Lemma store_window_geometry_overwrites_witness :
  settings (snd (snd (_store_window_geometry
                        (sample_app,
                         set_settings {[ "Preferences/Theme" := VString "dark" ]}
                                      sample_world))))
    !! "Preferences/Theme" = Some (VString "dark").
Proof.
  rewrite (proj1 (store_window_geometry_overwrites sample_app sample_app
                    (set_settings {[ "Preferences/Theme" := VString "dark" ]} sample_world))
                 "Preferences/Theme");
    [reflexivity | discriminate | discriminate | discriminate].
Defined.

(** X5.  The restore operation calls [.lower()] on whatever is stored
    under a flag and hands whatever is stored under the geometry key to
    [setGeometry]: a full-screen value that is not text raises
    [AttributeError]; so does a maximized value that is not text when
    full-screen is not set; and a geometry value that is not a rectangle
    raises [TypeError] when neither flag is set.  In each case the widget
    is neither changed nor shown. *)
Theorem set_window_geometry_rejects :
  forall (self : BlenderApplication) (w : World),
    let value key dflt :=
      QSettings_value (settings w) SETTINGS_WINDOW_GROUP_NAME key dflt in
    (is_text (value SETTINGS_KEY_FULL_SCREEN (VString "false")) = false ->
       _set_window_geometry (self, w) = (Raise AttributeError, (self, w))) /\
    (is_text (value SETTINGS_KEY_FULL_SCREEN (VString "false")) = true ->
     persisted_flag (settings w) SETTINGS_KEY_FULL_SCREEN = false ->
     is_text (value SETTINGS_KEY_MAXIMIZED (VString "false")) = false ->
       _set_window_geometry (self, w) = (Raise AttributeError, (self, w))) /\
    (is_text (value SETTINGS_KEY_FULL_SCREEN (VString "false")) = true ->
     persisted_flag (settings w) SETTINGS_KEY_FULL_SCREEN = false ->
     is_text (value SETTINGS_KEY_MAXIMIZED (VString "false")) = true ->
     persisted_flag (settings w) SETTINGS_KEY_MAXIMIZED = false ->
     is_rect (value SETTINGS_KEY_GEOMETRY (VRect DEFAULT_GEOMETRY)) = false ->
       _set_window_geometry (self, w) = (Raise TypeError, (self, w))).
Proof.
  intros self w value. subst value. cbv beta.
  rewrite set_window_geometry_run. unfold persisted_flag.
  destruct (QSettings_value (settings w) _ SETTINGS_KEY_FULL_SCREEN _) as [b|fs|r];
    cbn [is_text]; (split; [| split]); intros; try discriminate; try reflexivity.
  - rewrite H0.
    destruct (QSettings_value (settings w) _ SETTINGS_KEY_MAXIMIZED _) as [b|mx|r];
      cbn [is_text] in *; try discriminate; reflexivity.
  - rewrite H0.
    destruct (QSettings_value (settings w) _ SETTINGS_KEY_MAXIMIZED _) as [b|mx|r];
      cbn [is_text] in *; try discriminate.
    rewrite H2.
    destruct (QSettings_value (settings w) _ SETTINGS_KEY_GEOMETRY _) as [b|s|r];
      cbn [is_rect] in *; try discriminate; reflexivity.
Qed.

Lemma set_window_geometry_rejects_witness :
  _set_window_geometry
    (next_app,
     set_settings {[ "MainWindow/IsFullScreen" := VBool true ]} (fresh_world windows_host)) =
    (Raise AttributeError,
     (next_app,
      set_settings {[ "MainWindow/IsFullScreen" := VBool true ]} (fresh_world windows_host)))
  /\
  _set_window_geometry
    (next_app,
     set_settings {[ "MainWindow/Geometry" := VString "10,20,300,200" ]}
                  (fresh_world windows_host)) =
    (Raise TypeError,
     (next_app,
      set_settings {[ "MainWindow/Geometry" := VString "10,20,300,200" ]}
                   (fresh_world windows_host))).
Proof.
  split.
  - apply (proj1 (set_window_geometry_rejects next_app
                    (set_settings {[ "MainWindow/IsFullScreen" := VBool true ]}
                                  (fresh_world windows_host)))).
    reflexivity.
  - apply (proj2 (proj2 (set_window_geometry_rejects next_app
                    (set_settings {[ "MainWindow/Geometry" := VString "10,20,300,200" ]}
                                  (fresh_world windows_host)))));
      reflexivity.
Defined.

Lemma restored_widget_idempotent (store : gmap string QVariant) (wd : QWidget) :
  restored_widget store (restored_widget store wd) = restored_widget store wd.
Proof.
  unfold restored_widget.
  destruct (persisted_flag store SETTINGS_KEY_FULL_SCREEN); [reflexivity|].
  destruct (persisted_flag store SETTINGS_KEY_MAXIMIZED); reflexivity.
Qed.

(** X6.  On a stored state the restore operation only reads: it leaves
    the world, and with it the settings, as they were, and restoring a
    second time changes nothing more. *)
Theorem set_window_geometry_repeatable :
  forall (self : BlenderApplication) (w : World),
    stored_state (settings w) = true ->
    snd (snd (_set_window_geometry (self, w))) = w /\
    _set_window_geometry (snd (_set_window_geometry (self, w))) =
      (Ok tt, snd (_set_window_geometry (self, w))).
Proof.
  intros self w Hst. rewrite (set_window_geometry_stored self w Hst). cbn [snd].
  split; [reflexivity|].
  rewrite (set_window_geometry_stored _ w Hst).
  cbn [blender_widget set_blender_widget].
  rewrite restored_widget_idempotent. reflexivity.
Qed.

Lemma set_window_geometry_repeatable_witness :
  _set_window_geometry (snd (_set_window_geometry (next_app, fresh_world windows_host))) =
    (Ok tt, snd (_set_window_geometry (next_app, fresh_world windows_host))).
Proof.
  apply (set_window_geometry_repeatable next_app (fresh_world windows_host)).
  reflexivity.
Defined.

(** X7.  Intercepting a close event is idempotent: a second close event
    for the widget or the window finds the flag set, writes the same
    settings again and leaves the object and the world as the first one
    left them. *)
Theorem notify_close_twice :
  forall (QApplication_notify : nat -> QEvent -> QWidget -> bool * QEvent * QWidget)
         (receiver receiver' : nat) (event event' : QEvent)
         (self : BlenderApplication) (w : World),
    is_QCloseEvent event = true -> is_wrapped self receiver = true ->
    is_QCloseEvent event' = true -> is_wrapped self receiver' = true ->
    let s1 := snd (notify QApplication_notify receiver event (self, w)) in
    notify QApplication_notify receiver' event' s1 = (Ok (false, ignore event'), s1).
Proof.
  intros QApplication_notify receiver receiver' event event' self w Hc Hr Hc' Hr' s1.
  subst s1.
  destruct (notify_close_interception_steps QApplication_notify receiver event self w)
    as [Hyes _].
  rewrite (Hyes Hc Hr). cbn [snd].
  destruct (notify_close_interception_steps QApplication_notify receiver' event'
              (set_should_close true self)
              (set_settings (stored_settings (blender_widget self) (settings w)) w))
    as [Hyes' _].
  rewrite (Hyes' Hc' Hr'). cbn [settings set_settings blender_widget set_should_close].
  rewrite stored_settings_overwrite. reflexivity.
Qed.

Lemma notify_close_twice_witness :
  notify closing_notify 0 (mkQEvent QCloseEvent true)
    (snd (notify closing_notify 1 (mkQEvent QCloseEvent true) (sample_app, sample_world))) =
    (Ok (false, mkQEvent QCloseEvent false),
     snd (notify closing_notify 1 (mkQEvent QCloseEvent true) (sample_app, sample_world))).
Proof.
  apply (notify_close_twice closing_notify 1 0 (mkQEvent QCloseEvent true)
           (mkQEvent QCloseEvent true) sample_app sample_world); reflexivity.
Defined.

(** ** Registration: round trip, invariant, and the main block *)

Lemma list_remove_append_absent {A} `{EqDecision A} (x : A) (l : list A) :
  x ∉ l -> list_remove x (l ++ [x]) = l.
Proof.
  induction l as [|y t IH]; intros Hx; cbn.
  - now rewrite decide_True.
  - rewrite decide_False.
    + f_equal. apply IH. intros Hin. apply Hx. now right.
    + intros ->. apply Hx. now left.
Qed.

Lemma count_occ_list_remove {A} `{EqDecision A}
      (dec : forall x y : A, {x = y} + {x <> y}) (x : A) (l : list A) :
  count_occ dec (list_remove x l) x = pred (count_occ dec l x).
Proof.
  induction l as [|y t IH]; cbn; [reflexivity|].
  destruct (decide (x = y)) as [->|Hne].
  - destruct (dec y y); [reflexivity | contradiction].
  - cbn. destruct (dec y x) as [->|_]; [contradiction|]. exact IH.
Qed.

(** X8.  From a state with neither the command class nor the handler
    registered, [register] followed by [unregister] succeeds twice and
    gives back the very state it started from: the class list, the
    handler list with its other entries in their order, and all the
    rest. *)
Theorem register_unregister_round_trip :
  forall w : World,
    QOperator ∉ registered_classes w ->
    Fn_create_global_app ∉ load_post w ->
    fst (register w) = Ok tt /\
    unregister (snd (register w)) = (Ok tt, w).
Proof.
  intros w Hc Hh. rewrite register_run.
  rewrite !decide_False by assumption. cbv zeta. cbn [fst snd].
  split; [reflexivity|].
  rewrite unregister_run.
  cbn [registered_classes load_post set_load_post set_registered_classes].
  rewrite !decide_True by (apply elem_of_app; right; apply list_elem_of_singleton; reflexivity).
  cbv zeta. rewrite !list_remove_append_absent by assumption.
  destruct w; reflexivity.
Qed.

Lemma register_unregister_round_trip_witness :
  unregister
    (snd (register (set_load_post [Fn_other 3; Fn_other 8]
                      (set_registered_classes [OtherClass "VIEW3D_PT_tools"]
                         (fresh_world windows_host))))) =
    (Ok tt,
     set_load_post [Fn_other 3; Fn_other 8]
       (set_registered_classes [OtherClass "VIEW3D_PT_tools"] (fresh_world windows_host))).
Proof.
  apply (register_unregister_round_trip
           (set_load_post [Fn_other 3; Fn_other 8]
              (set_registered_classes [OtherClass "VIEW3D_PT_tools"]
                 (fresh_world windows_host)))).
  - cbn. intros H. apply list_elem_of_singleton in H. discriminate H.
  - cbn. intros H. apply elem_of_cons in H as [H|H]; [discriminate H|].
    apply list_elem_of_singleton in H. discriminate H.
Defined.

Lemma register_keeps_once (w : World) :
  registered_once w -> registered_once (snd (register w)).
Proof.
  intros [Hc Hh]. rewrite register_run. unfold registered_once, class_count, handler_count in *.
  destruct (decide (QOperator ∈ registered_classes w)) as [Hin|Hout]; [now split|].
  cbv zeta.
  destruct (decide (Fn_create_global_app ∈ load_post w)) as [Hin'|Hout'];
    cbn [snd registered_classes load_post set_load_post set_registered_classes];
    rewrite ?count_occ_append_one, ?count_occ_absent by assumption; split; lia.
Qed.

Lemma unregister_keeps_once (w : World) :
  registered_once w -> registered_once (snd (unregister w)).
Proof.
  intros [Hc Hh]. rewrite unregister_run. unfold registered_once, class_count, handler_count in *.
  destruct (decide (QOperator ∈ registered_classes w)) as [Hin|Hout]; [| now split].
  cbv zeta.
  destruct (decide (Fn_create_global_app ∈ load_post w)) as [Hin'|Hout'];
    cbn [snd registered_classes load_post set_load_post set_registered_classes];
    rewrite ?count_occ_list_remove; split; lia.
Qed.

Lemma run_op_keeps_registries
      (QApplication_notify : nat -> QEvent -> QWidget -> bool * QEvent * QWidget)
      (op : Op) (w : World) :
  op <> Op_register -> op <> Op_unregister ->
  registered_classes (run_op QApplication_notify op w) = registered_classes w /\
  load_post (run_op QApplication_notify op w) = load_post w.
Proof.
  intros Hr Hu.
  destruct op; try contradiction; cbn [run_op]; split;
    try (apply on_instance_kept; [frame close_kept | reflexivity]);
    match goal with
    | |- ?f (snd (?m w)) = ?f w =>
        enough (H : preserves (kept f) m) by apply H
    end;
    frame_all close_kept.
Qed.

(** X9.  No operation of the module registers the command class or the
    load handler a second time: when each is registered at most once, it
    is still registered at most once after any sequence of operations;
    and only [register] and [unregister] change the two lists at all. *)
Theorem registered_once_invariant :
  forall (QApplication_notify : nat -> QEvent -> QWidget -> bool * QEvent * QWidget)
         (ops : list Op) (w : World),
    registered_once w ->
    registered_once (run_ops QApplication_notify ops w) /\
    (Op_register ∉ ops -> Op_unregister ∉ ops ->
     registered_classes (run_ops QApplication_notify ops w) = registered_classes w /\
     load_post (run_ops QApplication_notify ops w) = load_post w).
Proof.
  intros QApplication_notify ops. induction ops as [|op ops IH]; intros w Hw.
  - split; [exact Hw | now split].
  - assert (Hstep : registered_once (run_op QApplication_notify op w)).
    { destruct op;
        try (apply register_keeps_once; exact Hw);
        try (apply unregister_keeps_once; exact Hw);
        match goal with
        | |- registered_once (run_op _ ?o w) =>
            destruct (run_op_keeps_registries QApplication_notify o w) as [Hc Hh];
              [discriminate | discriminate |]
        end;
        unfold registered_once, class_count, handler_count in *;
        rewrite Hc, Hh; exact Hw. }
    destruct (IH _ Hstep) as [Hinv Hsame]. split; [exact Hinv|].
    intros Hr Hu.
    assert (Hr' : Op_register ∉ ops) by (intros H; apply Hr; now right).
    assert (Hu' : Op_unregister ∉ ops) by (intros H; apply Hu; now right).
    destruct (Hsame Hr' Hu') as [Hc Hh].
    destruct (run_op_keeps_registries QApplication_notify op w) as [Hc1 Hh1].
    + intros ->. apply Hr. now left.
    + intros ->. apply Hu. now left.
    + cbn [run_ops fold_left] in *. unfold run_ops in Hc, Hh.
      rewrite Hc, Hh. now split.
Qed.

Lemma registered_once_invariant_witness :
  registered_once
    (run_ops closing_notify
       [Op_register; Op_register; Op_create_global_app; Op_unregister; Op_register;
        Op_on_update]
       (fresh_world windows_host)).
Proof.
  apply (registered_once_invariant closing_notify _ (fresh_world windows_host)).
  split; cbn; lia.
Defined.

Lemma main_block_run (w : World) :
  QOperator ∉ registered_classes w ->
  main_block w = register w.
Proof.
  intros Hc. unfold main_block. unfold bind at 1. unfold try_except.
  rewrite unregister_run. now rewrite decide_False by exact Hc.
Qed.

(** X10.  Run as a script, the module registers what the run has defined.
    The class and the handler function are objects of the run itself, so
    neither is registered when the main block starts: [unregister] then
    raises [RuntimeError], the block catches it, and [register] adds both.
    With a usable tick rate the run completes without error; the class is
    registered once, the handler comes after the handlers that were in the
    list, which all stay, the exit hook has been added and [TICK] holds
    the period. *)
Theorem import_as_main_registers :
  forall (w : World) (period : float),
    TICK_at_import (environ (host w)) = Ok period ->
    QOperator ∉ registered_classes w ->
    Fn_create_global_app ∉ load_post w ->
    let r := import_as_main w in
    main_block w = register w /\
    fst r = Ok tt /\
    class_count QOperator (snd r) = 1%nat /\
    load_post (snd r) = load_post w ++ [Fn_create_global_app] /\
    TICK (snd r) = period /\
    atexit_hooks (snd r) = atexit_hooks w ++ [Fn_onexit].
Proof.
  intros w period Ht Hc Hh r. subst r.
  split; [now apply main_block_run|].
  assert (Hrun : import_as_main w =
                 register (set_atexit_hooks (atexit_hooks w ++ [Fn_onexit])
                             (set_TICK period w))).
  { unfold import_as_main, bind. rewrite (import_module_run w period Ht).
    now rewrite main_block_run by exact Hc. }
  rewrite Hrun, register_run.
  cbn [registered_classes load_post set_atexit_hooks set_TICK].
  rewrite !decide_False by assumption. cbv zeta. cbn [fst snd].
  split; [reflexivity|]. split; [| repeat split].
  unfold class_count.
  cbn [registered_classes set_load_post set_registered_classes set_atexit_hooks set_TICK].
  rewrite count_occ_append_one, count_occ_absent by assumption. reflexivity.
Qed.

Lemma import_as_main_registers_witness :
  fst (import_as_main (set_load_post [Fn_other 7] (fresh_world windows_host))) = Ok tt /\
  class_count QOperator
    (snd (import_as_main (set_load_post [Fn_other 7] (fresh_world windows_host)))) = 1%nat /\
  load_post (snd (import_as_main (set_load_post [Fn_other 7] (fresh_world windows_host)))) =
    [Fn_other 7; Fn_create_global_app].
Proof.
  destruct (import_as_main_registers
              (set_load_post [Fn_other 7] (fresh_world windows_host)) default_period)
    as (_ & Hok & Hc & Hh & _).
  - vm_compute. reflexivity.
  - cbn. apply not_elem_of_nil.
  - cbn. intros H. apply list_elem_of_singleton in H. discriminate H.
  - split; [exact Hok|]. split; [exact Hc | exact Hh].
Defined.

(** [float] reads the decimal digits and the blanks of every script, not
    those of ASCII alone. *)
Lemma py_float_beyond_ascii :
  py_float arabic_indic_thirty = py_float "30" /\
  py_float no_break_space_thirty = py_float "30".
Proof. split; vm_compute; reflexivity. Qed.

(** X11.  What the tick rate does to the import, for every text of the
    variable.  A text [float] does not read raises [ValueError], a text it
    reads as zero raises [ZeroDivisionError], and in both cases the import
    stops before it has done anything: no exit hook is added and the world
    is left as it was.  Every other text lets the import complete, with
    [TICK] the period and the exit hook added. *)
Theorem import_fails_on_bad_tick_rate :
  forall (w : World) (text : string),
    getenv (environ (host w)) "BQT_TICK_RATE" = Some text ->
    (py_float text = None ->
       import_module w = (Raise ValueError, w)) /\
    (forall sign : bool, py_float text = Some (S754_zero sign) ->
       import_module w = (Raise ZeroDivisionError, w)) /\
    (forall rate : float, py_float text = Some rate ->
       (forall sign : bool, rate <> S754_zero sign) ->
       import_module w =
         (Ok tt, set_atexit_hooks (atexit_hooks w ++ [Fn_onexit])
                   (set_TICK (SFdiv prec64 emax64 float_one rate) w))).
Proof.
  intros w text Henv. split; [| split].
  - intros Hf. apply import_module_raises.
    now apply (TICK_at_import_not_numeric _ text).
  - intros sign Hf. apply import_module_raises.
    now rewrite (TICK_at_import_set _ _ _ Henv Hf).
  - intros rate Hf Hnz. apply import_module_run.
    rewrite (TICK_at_import_set _ _ _ Henv Hf).
    destruct rate; try reflexivity. now contradiction (Hnz s).
Qed.

Lemma import_fails_on_bad_tick_rate_witness :
  import_module (fresh_world (host_with_tick_rate "thirty")) =
    (Raise ValueError, fresh_world (host_with_tick_rate "thirty")) /\
  import_module (fresh_world (host_with_tick_rate "0.0")) =
    (Raise ZeroDivisionError, fresh_world (host_with_tick_rate "0.0")) /\
  TICK (snd (import_module (fresh_world (host_with_tick_rate arabic_indic_thirty)))) =
    default_period.
Proof.
  split; [| split].
  - apply (proj1 (import_fails_on_bad_tick_rate
                    (fresh_world (host_with_tick_rate "thirty")) "thirty" eq_refl)).
    vm_compute. reflexivity.
  - apply (proj1 (proj2 (import_fails_on_bad_tick_rate
                    (fresh_world (host_with_tick_rate "0.0")) "0.0" eq_refl)) false).
    vm_compute. reflexivity.
  - rewrite (proj2 (proj2 (import_fails_on_bad_tick_rate
                     (fresh_world (host_with_tick_rate arabic_indic_thirty))
                     arabic_indic_thirty eq_refl))
               (S754_finite false 8444249301319680 (-48))).
    + vm_compute. reflexivity.
    + vm_compute. reflexivity.
    + intros sign. discriminate.
Defined.

(** ** The constructor on each platform *)

Lemma IS_MAC_not_WINDOWS (h : Host) : IS_MAC h = true -> IS_WINDOWS h = false.
Proof.
  unfold IS_WINDOWS, IS_MAC. intros H. apply String.eqb_eq in H. now rewrite H.
Qed.

Lemma init_window_run (w : World) :
  IS_WINDOWS (host w) = true \/ IS_MAC (host w) = true ->
  init_window w =
    (Ok (mkBlenderApplication false (host_window (host w)) (next_object w)
           (new_widget (S (next_object w))) false),
     set_next_object (S (S (next_object w))) w).
Proof.
  intros H. unfold init_window, bind, gets, new_object, modify, ret.
  destruct (IS_WINDOWS (host w)); [reflexivity|].
  destruct H as [H|H]; [discriminate|]. now rewrite H.
Qed.

(** X12.  On macOS the constructor never reads the settings: for every
    store, well formed or not, it returns an object whose container widget
    is new and not shown, sets the icon of the application bundle as the
    application icon, and changes nothing else but the two object
    identities it uses. *)
Theorem init_macintosh_skips_restore :
  forall w : World,
    IS_MAC (host w) = true ->
    BlenderApplication__init__ w =
      (Ok (mkBlenderApplication false (host_window (host w)) (next_object w)
             (new_widget (S (next_object w))) true),
       set_window_icon
         (Some (mkQIcon (contents_path (host w) +:+ "/Resources/blender icon.icns")))
         (set_next_object (S (S (next_object w))) w)).
Proof.
  intros w Hmac. unfold BlenderApplication__init__. unfold bind at 1.
  rewrite init_window_run by now right.
  unfold init_finish, init_icon, _get_application_icon_macintosh, bind, gets, ret.
  cbn [host set_next_object]. rewrite Hmac.
  assert (Ht : icon_truthy
                 (Some (mkQIcon (contents_path (host w) +:+ "/Resources/blender icon.icns")))
               = true).
  { unfold icon_truthy, QIcon_isNull. cbn [icon_file].
    apply negb_true_iff, String.eqb_neq, append_not_empty. discriminate. }
  change (host (set_next_object (S (S (next_object w))) w)) with (host w).
  rewrite Ht. reflexivity.
Qed.

Lemma init_macintosh_skips_restore_witness :
  fst (BlenderApplication__init__
         (set_settings {[ "MainWindow/IsFullScreen" := VBool true ]} (fresh_world mac_host))) =
    Ok (mkBlenderApplication false 4302 0 (new_widget 1) true).
Proof.
  rewrite (init_macintosh_skips_restore
             (set_settings {[ "MainWindow/IsFullScreen" := VBool true ]}
                           (fresh_world mac_host)) eq_refl).
  reflexivity.
Defined.

(** The loop over the processes never raises and writes nothing but the
    icon file. *)
Lemma icon_loop_shape (l : list (Z * option string)) (w : World) :
  fst (for_each icon_of_process l w) = Ok tt /\
  forall v, set_temp_icon v (snd (for_each icon_of_process l w)) = set_temp_icon v w.
Proof.
  revert w. induction l as [|p l IH]; intros w; cbn [for_each].
  - now split.
  - unfold bind.
    assert (Hp : exists w', icon_of_process p w = (Ok tt, w') /\
                            forall v, set_temp_icon v w' = set_temp_icon v w).
    { unfold icon_of_process. destruct (snd p) as [exe|]; [| now exists w].
      destruct (contains "blender" (lower exe)); [| now exists w].
      eexists. split; [reflexivity|]. reflexivity. }
    destruct Hp as (w' & -> & Hw'). destruct (IH w') as [Hok Hset].
    split; [exact Hok|]. intros v. now rewrite Hset.
Qed.

Lemma for_each_app {S A} (body : A -> M S unit) (l1 l2 : list A) (s : S) :
  for_each body (l1 ++ l2) s = bind (for_each body l1) (fun _ => for_each body l2) s.
Proof.
  revert s. induction l1 as [|x l1 IH]; intros s; cbn [for_each app].
  - reflexivity.
  - unfold bind in *. destruct (body x s) as [[[]|e] s']; [apply IH | reflexivity].
Qed.

(** X13.  The Windows icon routine goes through every process and never
    stops early: processes that cannot be opened are skipped, and when
    several executables have [blender] in their name, in any letter case,
    the icon saved at the temporary path is that of the last one (the
    drawing and saving calls being taken to succeed).  The routine changes
    nothing but that file. *)
Theorem icon_windows_last_match :
  forall (w : World) (l1 l2 : list (Z * option string)) (pid : Z) (exe : string),
    processes (host w) = l1 ++ (pid, Some exe) :: l2 ->
    contains "blender" (lower exe) = true ->
    forallb (fun p : Z * option string =>
               match snd p with
               | Some exe => negb (contains "blender" (lower exe))
               | None => true
               end) l2 = true ->
    _get_application_icon_windows w =
      (Ok (mkQIcon (TEMP_ICON_FILEPATH (host w))), set_temp_icon (Some exe) w).
Proof.
  intros w l1 l2 pid exe Hl Hexe Hl2.
  unfold _get_application_icon_windows. unfold bind at 1. unfold gets at 1.
  unfold bind at 1. rewrite Hl, for_each_app. unfold bind at 1.
  destruct (icon_loop_shape l1 w) as [Hok Hset].
  destruct (for_each icon_of_process l1 w) as [[[]|e] w1]; cbn [fst snd] in *;
    [| discriminate Hok].
  cbn [for_each]. unfold bind at 1. unfold icon_of_process at 1. cbn [snd].
  rewrite Hexe. unfold modify at 1. rewrite Hset.
  now rewrite (icon_loop_no_match l2 _ Hl2).
Qed.

Lemma icon_windows_last_match_witness :
  _get_application_icon_windows (fresh_world host_with_two_blenders) =
    (Ok (mkQIcon "C:\Temp\blender_icon.png"),
     set_temp_icon (Some "C:\Program Files\Blender Foundation\BLENDER.EXE")
                   (fresh_world host_with_two_blenders)).
Proof.
  exact (icon_windows_last_match (fresh_world host_with_two_blenders)
           [(4, None); (900, Some "C:\Tools\Blender-2.79\blender.exe"); (904, None)]
           [(2100, Some "C:\Windows\explorer.exe")] 2040
           "C:\Program Files\Blender Foundation\BLENDER.EXE" eq_refl eq_refl eq_refl).
Defined.

Lemma set_window_geometry_keeps_settings_world (self : BlenderApplication) (w : World) :
  snd (snd (_set_window_geometry (self, w))) = w.
Proof. apply (set_window_geometry_keeps_world (self, w)). Qed.

(** X14.  On Windows, with the settings as an earlier session left
    them, and when the icon routine returns (its drawing and saving calls
    are taken to succeed, as in X13), the constructor returns an object
    with the flag clear, the host's window handle and a new container
    widget restored from the settings by priority and shown; it sets the
    icon the routine returned, the one made from the temporary path, as
    the application icon and leaves the settings as they were. *)
Theorem init_windows_restores :
  forall (w w2 : World) (icon : QIcon),
    IS_WINDOWS (host w) = true ->
    stored_state (settings w) = true ->
    _get_application_icon_windows (set_next_object (S (S (next_object w))) w) =
      (Ok icon, w2) ->
    let r := BlenderApplication__init__ w in
    fst r =
      Ok (mkBlenderApplication false (host_window (host w)) (next_object w)
            (restored_widget (settings w) (new_widget (S (next_object w)))) true) /\
    icon = mkQIcon (TEMP_ICON_FILEPATH (host w)) /\
    window_icon (snd r) = Some icon /\
    settings (snd r) = settings w /\
    next_object (snd r) = S (S (next_object w)).
Proof.
  intros w w2 icon Hwin Hst Hicon r. subst r.
  set (w1 := set_next_object (S (S (next_object w))) w) in *.
  assert (Hshape : icon = mkQIcon (TEMP_ICON_FILEPATH (host w)) /\
                   settings w2 = settings w /\
                   next_object w2 = S (S (next_object w))).
  { unfold _get_application_icon_windows in Hicon.
    unfold bind at 1 in Hicon. unfold gets at 1 in Hicon. unfold bind at 1 in Hicon.
    change (host w1) with (host w) in Hicon.
    destruct (icon_loop_shape (processes (host w)) w1) as [Hok Hset].
    destruct (for_each icon_of_process (processes (host w)) w1) as [[[]|e] w3];
      cbn [fst snd] in *; [| discriminate Hok].
    unfold ret in Hicon. injection Hicon as <- <-.
    split; [reflexivity|]. split.
    - change (settings w3) with (settings (set_temp_icon None w3)). now rewrite Hset.
    - change (next_object w3) with (next_object (set_temp_icon None w3)). now rewrite Hset. }
  destruct Hshape as (Hi & Hs & Hn).
  assert (Hrun : BlenderApplication__init__ w =
                 (Ok (mkBlenderApplication false (host_window (host w)) (next_object w)
                        (restored_widget (settings w) (new_widget (S (next_object w)))) true),
                  set_window_icon (Some icon) w2)).
  { unfold BlenderApplication__init__. unfold bind at 1.
    rewrite init_window_run by now left. fold w1.
    unfold init_finish. unfold bind at 1. unfold gets at 1.
    unfold bind at 1. unfold init_icon. unfold bind at 1. unfold gets at 1.
    change (host w1) with (host w).
    rewrite (IS_WINDOWS_not_MAC _ Hwin), (IS_WINDOWS_not_LINUX _ Hwin), Hwin.
    unfold bind at 1. rewrite Hicon.
    unfold ret at 1.
    unfold bind at 1. rewrite Hi, temp_icon_truthy. unfold modify at 1.
    cbn [negb]. unfold bind at 1. unfold bind at 1. unfold call_method.
    rewrite set_window_geometry_stored
      by (cbn [settings set_window_icon]; now rewrite Hs).
    cbn [settings set_window_icon blender_widget]. rewrite Hs. reflexivity. }
  rewrite Hrun. cbn [fst snd window_icon settings next_object set_window_icon].
  repeat split; assumption.
Qed.

Lemma init_windows_restores_witness :
  fst (BlenderApplication__init__
         (set_settings
            (reopened windows_host
               (stored_settings (widget_in_state 1 (mkQRect 10 20 300 200) true false) ∅))
            (fresh_world windows_host))) =
    Ok (mkBlenderApplication false 65552 0
          (mkQWidget 1 (mkQRect 0 0 640 480) true false true) true).
Proof.
  destruct (init_windows_restores
              (set_settings
                 (reopened windows_host
                    (stored_settings (widget_in_state 1 (mkQRect 10 20 300 200) true false) ∅))
                 (fresh_world windows_host))
              (snd (_get_application_icon_windows
                      (set_next_object 2
                         (set_settings
                            (reopened windows_host
                               (stored_settings
                                  (widget_in_state 1 (mkQRect 10 20 300 200) true false) ∅))
                            (fresh_world windows_host)))))
              (mkQIcon "C:\Temp\blender_icon.png"))
    as (Hself & _); [reflexivity | vm_compute; reflexivity | vm_compute; reflexivity |].
  etransitivity; [exact Hself|]. vm_compute. reflexivity.
Defined.

(** X15.  On a platform that is neither Windows nor macOS the handle is
    never assigned, so the constructor raises [AttributeError] before it
    makes a window: with no instance yet, [instantiate_application] and
    the operator's [execute] raise that error and do not register the tick
    timer. *)
Theorem instantiate_fails_without_handle :
  forall w : World,
    IS_WINDOWS (host w) = false ->
    IS_MAC (host w) = false ->
    qapp w = None ->
    fst (instantiate_application w) = Raise AttributeError /\
    timers (snd (instantiate_application w)) = timers w /\
    fst (QOperator_execute w) = Raise AttributeError /\
    timers (snd (QOperator_execute w)) = timers w.
Proof.
  intros w Hwin Hmac Hnone.
  assert (Hinit : fst (BlenderApplication__init__ w) = Raise AttributeError)
    by (unfold BlenderApplication__init__, init_window, bind, gets;
        now rewrite Hwin, Hmac).
  destruct (instantiate_application_raises w _ Hnone Hinit) as (Hout & Ht & _).
  rewrite execute_run, Hout. cbn [fst snd]. repeat split; assumption.
Qed.

Lemma instantiate_fails_without_handle_witness :
  fst (instantiate_application (fresh_world linux_host)) = Raise AttributeError /\
  fst (QOperator_execute (fresh_world freebsd_host)) = Raise AttributeError.
Proof.
  split.
  - apply (instantiate_fails_without_handle (fresh_world linux_host)); reflexivity.
  - apply (instantiate_fails_without_handle (fresh_world freebsd_host)); reflexivity.
Defined.

(** ** What the operations leave alone *)

Lemma one_timer_kept (w w' : World) :
  timers w' = timers w ->
  (qapp w' = None -> qapp w = None) ->
  one_timer w -> one_timer w'.
Proof.
  unfold one_timer, timer_count. intros Ht Hq [Hle Hnone]. rewrite Ht.
  split; [exact Hle|]. intros H. apply Hnone, Hq, H.
Qed.

Lemma instantiate_one_timer (w : World) :
  one_timer w -> one_timer (snd (instantiate_application w)).
Proof.
  intros Hw. destruct (qapp w) as [app|] eqn:Happ.
  - now rewrite (instantiate_application_existing w app Happ).
  - destruct (BlenderApplication__init__ w) as [[self|e] w'] eqn:Hinit.
    + rewrite (instantiate_application_first w w' self Happ Hinit). cbn [snd].
      destruct Hw as [_ Hnone]. unfold one_timer, timer_count in *.
      cbn [timers qapp set_timers set_qapp].
      rewrite count_occ_append_one, (Hnone Happ). split; [lia | discriminate].
    + assert (Hraise : fst (BlenderApplication__init__ w) = Raise e)
        by now rewrite Hinit.
      destruct (instantiate_application_raises w e Happ Hraise) as (_ & Ht & _).
      apply (one_timer_kept w _ Ht); [| exact Hw]. intros _. exact Happ.
Qed.

Lemma execute_world (w : World) :
  snd (QOperator_execute w) = snd (instantiate_application w).
Proof.
  unfold QOperator_execute, bind.
  destruct (instantiate_application w) as [[a|e] w']; reflexivity.
Qed.

Lemma create_global_app_world (w : World) :
  snd (create_global_app w) = w \/
  snd (create_global_app w) = snd (instantiate_application w).
Proof.
  unfold create_global_app, bind, gets.
  destruct (contains "startup" (module_file (host w)) &&
            negb (str_truthy (getenv (environ (host w)) "BQT_DISABLE_STARTUP")));
    [| now left].
  unfold bpy_ops_qoperator_global_app, bind, gets.
  destruct (decide (QOperator ∈ registered_classes w)) as [Hin|Hout]; [| now left].
  right. rewrite <- execute_world.
  destruct (QOperator_execute w) as [[a|err] w']; reflexivity.
Qed.

Lemma on_instance_none {A} (m : Method A) (w : World) :
  qapp (on_instance m w) = None -> qapp w = None.
Proof.
  unfold on_instance. destruct (qapp w) as [[|self|]|] eqn:Happ.
  - intros H. congruence.
  - destruct (m (self, w)) as [r [self' w']]. discriminate.
  - intros H. congruence.
  - reflexivity.
Qed.

Lemma run_op_one_timer
      (QApplication_notify : nat -> QEvent -> QWidget -> bool * QEvent * QWidget)
      (op : Op) (w : World) :
  one_timer w -> one_timer (run_op QApplication_notify op w).
Proof.
  intros Hw.
  destruct op; cbn [run_op];
    try (apply (one_timer_kept w);
         [apply on_instance_kept; [frame close_kept | reflexivity]
         | apply on_instance_none | exact Hw]).
  - now apply instantiate_one_timer.
  - rewrite execute_world. now apply instantiate_one_timer.
  - apply (one_timer_kept w); [| | exact Hw].
    + enough (H : preserves (kept timers) on_update) by apply H. frame close_kept.
    + enough (H : preserves (kept qapp) on_update) by (intros E; now rewrite <- (H w)).
      frame close_kept.
  - destruct (create_global_app_world w) as [-> | ->];
      [exact Hw | now apply instantiate_one_timer].
  - apply (one_timer_kept w); [| | exact Hw].
    + enough (H : preserves (kept timers) register) by apply H. frame close_kept.
    + enough (H : preserves (kept qapp) register) by (intros E; now rewrite <- (H w)).
      frame close_kept.
  - apply (one_timer_kept w); [| | exact Hw].
    + enough (H : preserves (kept timers) unregister) by apply H. frame close_kept.
    + enough (H : preserves (kept qapp) unregister) by (intros E; now rewrite <- (H w)).
      frame close_kept.
  - apply (one_timer_kept w); [| | exact Hw].
    + enough (H : preserves (kept timers) onexit) by apply H. frame close_kept.
    + enough (H : preserves (kept qapp) onexit) by (intros E; now rewrite <- (H w)).
      frame close_kept.
Qed.

(** X16.  The tick timer is registered at most once, and never before
    there is an application instance: from a state of which that is true,
    no sequence of events, operator runs, ticks, load hooks,
    registrations and exit hooks leads to a second tick timer, whether
    constructions succeed or fail on the way. *)
Theorem one_timer_invariant :
  forall (QApplication_notify : nat -> QEvent -> QWidget -> bool * QEvent * QWidget)
         (ops : list Op) (w : World),
    one_timer w -> one_timer (run_ops QApplication_notify ops w).
Proof.
  intros QApplication_notify ops. induction ops as [|op ops IH]; intros w Hw.
  - exact Hw.
  - apply (IH (run_op QApplication_notify op w)). now apply run_op_one_timer.
Qed.

Lemma one_timer_invariant_witness :
  one_timer
    (run_ops closing_notify
       [Op_register; Op_create_global_app; Op_execute; Op_instantiate_application;
        Op_notify 1 (mkQEvent QCloseEvent true); Op_on_update; Op_execute]
       (fresh_world windows_host)).
Proof.
  apply (one_timer_invariant closing_notify _ (fresh_world windows_host)).
  split; [cbn; lia | reflexivity].
Defined.

Lemma super_notify_keeps_settings
      (QApplication_notify : nat -> QEvent -> QWidget -> bool * QEvent * QWidget)
      (receiver : nat) (event : QEvent) :
  preserves (kept (fun s : Self => settings (snd s)))
            (super_notify QApplication_notify receiver event).
Proof. frame close_kept. Qed.

(** X17.  The settings are written when the window is closed and at no
    other time: an operation that is neither the store operation nor a
    close event the instance intercepts leaves every key of the store as
    it was.  In particular construction, restore, ticks, focus changes and
    events passed to the default handling never write. *)
Theorem settings_written_on_close_only :
  forall (QApplication_notify : nat -> QEvent -> QWidget -> bool * QEvent * QWidget)
         (op : Op) (w : World),
    writes_settings w op = false ->
    settings (run_op QApplication_notify op w) = settings w.
Proof.
  intros QApplication_notify op w Hop.
  destruct op; cbn [run_op]; try discriminate Hop.
  1: { unfold on_instance. cbn [writes_settings] in Hop.
       destruct (qapp w) as [[|self|]|]; try reflexivity.
       destruct (notify_close_interception_steps QApplication_notify receiver event self w)
         as [_ Hno].
       rewrite (Hno Hop).
       pose proof (super_notify_keeps_settings QApplication_notify receiver event (self, w))
         as Hk.
       unfold kept in Hk.
       destruct (super_notify QApplication_notify receiver event (self, w))
         as [r [self' w']].
       exact Hk. }
  all: try (apply on_instance_kept; [frame close_kept | reflexivity]).
  all: match goal with
       | |- settings (snd (?m ?w0)) = settings ?w0 =>
           enough (H : preserves (kept settings) m) by apply H
       end;
       frame_all close_kept.
Qed.

Lemma settings_written_on_close_only_witness :
  settings (run_op closing_notify (Op_notify 7 (mkQEvent QCloseEvent true)) sample_world) =
    settings sample_world /\
  settings (run_op closing_notify Op_instantiate_application (fresh_world windows_host)) =
    settings (fresh_world windows_host).
Proof.
  split.
  - apply (settings_written_on_close_only closing_notify
             (Op_notify 7 (mkQEvent QCloseEvent true)) sample_world).
    reflexivity.
  - apply (settings_written_on_close_only closing_notify Op_instantiate_application
             (fresh_world windows_host)).
    reflexivity.
Defined.

(** X18.  Native focus moves in one case only.  A focus change Qt
    reports to the wrapper hands native focus to the window handle the
    wrapper was built on exactly when the object that took focus is the
    container widget and the platform is Windows; a focus change to any
    other object, or on any other platform, leaves native focus where it
    was, and so does every other operation. *)
Theorem native_focus_only_from_container :
  forall (QApplication_notify : nat -> QEvent -> QWidget -> bool * QEvent * QWidget)
         (w : World),
    (forall (focus_object : nat) (self : BlenderApplication),
       qapp w = Some (Wrapper self) ->
       native_focus (run_op QApplication_notify (Op_focus_object_changed focus_object) w) =
         if Nat.eqb focus_object (widget_id (blender_widget self)) && IS_WINDOWS (host w)
         then Some (_hwnd self)
         else native_focus w) /\
    (forall op : Op,
       (forall focus_object : nat, op <> Op_focus_object_changed focus_object) ->
       native_focus (run_op QApplication_notify op w) = native_focus w).
Proof.
  intros QApplication_notify w. split.
  - intros focus_object self Happ. cbn [run_op]. unfold on_instance. rewrite Happ.
    unfold _on_focus_object_changed, bind, get_self, get_world, gets. cbn [fst snd].
    destruct (Nat.eqb focus_object (widget_id (blender_widget self))); [| reflexivity].
    destruct (IS_WINDOWS (host w)); reflexivity.
  - intros op Hop.
    destruct op; cbn [run_op]; try (now contradiction (Hop focus_object)).
    all: try (apply on_instance_kept; [frame close_kept | reflexivity]).
    all: match goal with
         | |- native_focus (snd (?m ?w0)) = native_focus ?w0 =>
             enough (H : preserves (kept native_focus) m) by apply H
         end;
         frame_all close_kept.
Qed.

Lemma native_focus_only_from_container_witness :
  native_focus (run_op closing_notify (Op_focus_object_changed 1) sample_world) =
    Some 65552 /\
  native_focus (run_op closing_notify (Op_focus_object_changed 2) sample_world) = None /\
  native_focus (run_op closing_notify (Op_focus_object_changed 1)
                  (set_qapp (Some (Wrapper sample_app)) (fresh_world mac_host))) = None /\
  native_focus (run_op closing_notify Op_execute (fresh_world windows_host)) = None.
Proof.
  split; [| split; [| split]].
  - exact (proj1 (native_focus_only_from_container closing_notify sample_world)
             1%nat sample_app eq_refl).
  - exact (proj1 (native_focus_only_from_container closing_notify sample_world)
             2%nat sample_app eq_refl).
  - exact (proj1 (native_focus_only_from_container closing_notify
                    (set_qapp (Some (Wrapper sample_app)) (fresh_world mac_host)))
             1%nat sample_app eq_refl).
  - apply (proj2 (native_focus_only_from_container closing_notify (fresh_world windows_host))
             Op_execute).
    intros focus_object. discriminate.
Defined.
